(** * Site attendance dashboard (src/src/App.jsx): model and properties

    A shallow embedding of the attendance logic of [App.jsx]:
    the storage helpers [loadLS] and [saveLS], the state updates
    [handleMark], [handleBulk] and [logout] of the [App] component with
    its counters and effects, the login screen, the rows of the printed
    report, the export [downloadPDF], the three-day absence rule
    [computeAutoAbsent] with its helper [dateOffset], and the self tests
    [runSelfTests].

    Modelling conventions.
    - A JavaScript object used as a dictionary is a [gmap] keyed by
      strings, holding the object's own properties.  A sheet is read and
      written under worker ids, which are arbitrary strings: a read
      [sheet[id]] is [readProp], which falls back on the properties
      inherited from [Object.prototype] (such as [constructor]), and an
      assignment [sheet[id] = v] is [assignProp], which stores nothing
      under [__proto__] unless the sheet has an own entry of that name.
      An object literal or a spread defines own properties whatever the
      key.  The table is read and written under dates, which come from the
      date input and from [toISOString] and name no inherited property:
      there [o[k]] is the own lookup [o !! k], with [None] for
      [undefined].
    - A status value is a string, as the two status codes are; other
      JSON values that a stored sheet could hold are outside the model.
      JavaScript truthiness of a string ("not the empty string") is
      [truthy].
    - The host clock is read by [new Date()]; every function that reads
      it takes the reading as its first argument [now], in milliseconds
      since the epoch.  The host is taken to run in UTC, so that local
      calendar arithmetic ([getDate]/[setDate]) and the UTC rendering of
      [toISOString] speak about the same calendar day.
    - An exception is the [Throw] case of [completion]; [try_catch] is
      the [try { } catch { }] statement.
    - [JSON.parse] and [JSON.stringify] are parameters of the functions
      that call them.  The write-through of the state ([saveLS] in the
      [useEffect] hooks) is modelled for a render in which the three
      cells are new.
    - Of the rendering, the model keeps the texts: the status labels, the
      rows of the printed report and the two counters.  Of [downloadPDF]
      it keeps the control flow; the calls into [html2canvas] and [jsPDF]
      are one host action that completes or throws. *)

From Stdlib Require Import ZArith String Ascii List.
From stdpp Require Import gmap strings list fin_maps.

Local Open Scope string_scope.
Local Open Scope list_scope.
Local Open Scope Z_scope.

(** ** Host: the [Date] object *)

Module Host.

Definition MS_PER_DAY : Z := 86400000.

(** Day number (days since 1970-01-01) to proleptic Gregorian
    (year, month, day), the calendar [Date] uses. *)
Definition civil_from_days (days : Z) : Z * Z * Z :=
  let z := days + 719468 in
  let era := z / 146097 in
  let doe := z - era * 146097 in
  let yoe := (doe - doe / 1460 + doe / 36524 - doe / 146096) / 365 in
  let doy := doe - (365 * yoe + yoe / 4 - yoe / 100) in
  let mp := (5 * doy + 2) / 153 in
  let d := doy - (153 * mp + 2) / 5 + 1 in
  let m := if mp <? 10 then mp + 3 else mp - 9 in
  let y := yoe + era * 400 + (if m <=? 2 then 1 else 0) in
  (y, m, d).

Definition digit (n : Z) : string :=
  String (ascii_of_N (48 + Z.to_N (n mod 10))) EmptyString.

(** Decimal rendering of [n >= 0] on exactly [width] digits
    (low-order digits are kept). *)
Fixpoint pad (width : nat) (n : Z) : string :=
  match width with
  | O => EmptyString
  | S k => (pad k (n / 10) ++ digit n)%string
  end.

(** The date part of [toISOString()]: four-digit years, or the
    expanded signed six-digit form outside 0000..9999. *)
Definition iso_string (y m d : Z) : string :=
  let ys := if (0 <=? y) && (y <=? 9999) then pad 4 y
            else ((if (y <? 0)%Z then "-" else "+") ++ pad 6 (Z.abs y))%string in
  (ys ++ "-" ++ pad 2 m ++ "-" ++ pad 2 d)%string.

(** The first ten characters of the ISO rendering of a day number. *)
Definition isoDateOfDay (day : Z) : string :=
  let '(y, m, d) := civil_from_days day in
  substring 0 10 (iso_string y m d).

(** [new Date(ms).toISOString().slice(0, 10)] *)
Definition toISODate (ms : Z) : string :=
  isoDateOfDay (ms / MS_PER_DAY).

End Host.

(** ** Data model *)

Record Worker := mkWorker {
  worker_id : string;
  worker_name : string;
  worker_trade : string
}.

Record Supervisor := mkSupervisor {
  supervisor_id : string;
  supervisor_name : string
}.

Global Instance Worker_eq_dec : EqDecision Worker.
Proof. solve_decision. Defined.

(** One day's sheet: worker id to status; the table: ISO date to sheet. *)
Abbreviation DayRecords := (gmap string string).
Abbreviation AttendanceTable := (gmap string (gmap string string)).

Definition DEFAULT_WORKERS : list Worker :=
  [ mkWorker "W-101" "Abdul Karim" "Mason";
    mkWorker "W-102" "Shahin Mia" "Electrician";
    mkWorker "W-103" "Rasel Ahmed" "Carpenter";
    mkWorker "W-104" "Mizanur Rahman" "Plumber";
    mkWorker "W-105" "Sumon Hossain" "Helper" ].

Definition SUPERVISORS : list Supervisor :=
  [ mkSupervisor "S-1" "Site Supervisor A";
    mkSupervisor "S-2" "Site Supervisor B" ].

(** JavaScript truthiness of a string value. *)
Definition truthy (s : string) : bool :=
  match s with
  | EmptyString => false
  | String _ _ => true
  end.

(** [getToday()] *)
Definition getToday (now : Z) : string := Host.toISODate now.

(** [dateOffset(delta)]: [dt = new Date(); dt.setDate(dt.getDate() + delta);
    dt.toISOString().slice(0, 10)]. *)
Definition dateOffset (now : Z) (delta : Z) : string :=
  let dt := now in
  let dt := dt + delta * Host.MS_PER_DAY in
  Host.toISODate dt.

Global Arguments dateOffset : simpl never.
Global Arguments getToday : simpl never.

(** ** The absence rule *)

(** The names of the properties that every plain object inherits from
    [Object.prototype]. *)
Definition Object_prototype_keys : list string :=
  [ "constructor"; "__defineGetter__"; "__defineSetter__"; "hasOwnProperty";
    "__lookupGetter__"; "__lookupSetter__"; "isPrototypeOf";
    "propertyIsEnumerable"; "toString"; "valueOf"; "__proto__";
    "toLocaleString" ].

Definition inherited (k : string) : bool :=
  existsb (String.eqb k) Object_prototype_keys.

(** What [sheet[k]] evaluates to: the sheet's own entry; failing that,
    the function or object inherited under that name, which is truthy and
    equal to no string; failing that, [undefined]. *)
Inductive PropRead : Type :=
  | Own (s : string)
  | Inherited
  | Undefined.

(** [sheet[k]] *)
Definition readProp (sheet : DayRecords) (k : string) : PropRead :=
  match sheet !! k with
  | Some s => Own s
  | None => if inherited k then Inherited else Undefined
  end.

(** [sheet[k] = v] for a string [v].  Every inherited property but
    [__proto__] is a writable data property, so the assignment creates or
    updates an own entry; [__proto__] is inherited as an accessor, whose
    setter ignores a string, so the assignment stores something only when
    the sheet already has an own entry of that name. *)
Definition assignProp (sheet : DayRecords) (k v : string) : DayRecords :=
  if String.eqb k "__proto__" then
    match sheet !! k with
    | Some _ => <[k := v]> sheet
    | None => sheet
    end
  else <[k := v]> sheet.

(** The callback of [dayMaps.every]: [m[w.id] ? m[w.id] === "A" : true]. *)
Definition absentIn (w : Worker) (m : DayRecords) : bool :=
  match readProp m (worker_id w) with
  | Own s => if truthy s then String.eqb s "A" else true
  | Inherited => false
  | Undefined => true
  end.

(** [computeAutoAbsent(attendance, workers)] *)
Definition computeAutoAbsent (now : Z) (attendance : AttendanceTable)
    (workers : list Worker) : list Worker :=
  let days := map (fun d => dateOffset now (- d)) [1; 2; 3] in
  let dayMaps := map (fun d => default ∅ (attendance !! d)) days in
  fold_left
    (fun flagged w =>
       let allAbsent := forallb (absentIn w) dayMaps in
       if allAbsent then flagged ++ [w] else flagged)
    workers [].

(** [attendance[d] || {}]: the sheet of date [d], empty when the table
    has no entry for [d]. *)
Definition recordsOn (attendance : AttendanceTable) (d : string) : DayRecords :=
  default ∅ (attendance !! d).

(** ** Exceptions and the storage loader *)

Inductive completion (A : Type) : Type :=
  | Normal (a : A)
  | Throw (e : string).
Arguments Normal {A} a.
Arguments Throw {A} e.

Definition bind {A B : Type} (c : completion A) (k : A -> completion B)
    : completion B :=
  match c with
  | Normal a => k a
  | Throw e => Throw e
  end.

(** [try { body } catch { handler }] *)
Definition try_catch {A : Type} (body handler : completion A) : completion A :=
  match body with
  | Normal a => Normal a
  | Throw _ => handler
  end.

(** The browser's [localStorage]: a key-value store of strings, or a
    store the page may not access, where every access throws. *)
Inductive LocalStorage : Type :=
  | Available (items : gmap string string)
  | Denied (e : string).

(** [localStorage.getItem(key)]; [None] is [null]. *)
Definition getItem (ls : LocalStorage) (key : string)
    : completion (option string) :=
  match ls with
  | Available items => Normal (items !! key)
  | Denied e => Throw e
  end.

Definition LS_KEYS_attendance : string := "ct_attendance_demo__records".
Definition LS_KEYS_workers : string := "ct_attendance_demo__workers".
Definition LS_KEYS_supervisor : string := "ct_attendance_demo__supervisor".

(** The application state held by [App]: the four [useState] cells, and
    the notifications emitted so far through [toast]. *)
Record AppState := mkApp {
  supervisor : option Supervisor;
  workers : list Worker;
  attendance : AttendanceTable;
  date : string;
  toasts : list string
}.

Section Loader.

(** [JSON.parse] at the type of the stored record; [Throw] is its
    [SyntaxError]. *)
Context {V : Type} (JSON_parse : string -> completion V).

(** [loadLS(key, fallback)] *)
Definition loadLS (ls : LocalStorage) (key : string) (fallback : V)
    : completion V :=
  try_catch
    (bind (getItem ls key) (fun raw =>
       match raw with
       | Some r => if truthy r then JSON_parse r else Normal fallback
       | None => Normal fallback
       end))
    (Normal fallback).

End Loader.

(** ** The [App] component: initial state and handlers *)

Section AppInit.

Context (parseSupervisor : string -> completion (option Supervisor))
        (parseWorkers : string -> completion (list Worker))
        (parseAttendance : string -> completion AttendanceTable).

(** The [useState] initialisers of [App], run in order. *)
Definition App_init (now : Z) (ls : LocalStorage) : completion AppState :=
  bind (loadLS parseSupervisor ls LS_KEYS_supervisor None) (fun sup =>
  bind (loadLS parseWorkers ls LS_KEYS_workers DEFAULT_WORKERS) (fun ws =>
  bind (loadLS parseAttendance ls LS_KEYS_attendance ∅) (fun att =>
  Normal (mkApp sup ws att (getToday now) [])))).

End AppInit.

(** [const todayRecords = attendance[date] || {}] *)
Definition todayRecords (st : AppState) : DayRecords :=
  recordsOn (attendance st) (date st).

(** [status === "P" ? "Present" : "Absent"] *)
Definition statusLabel (status : string) : string :=
  if String.eqb status "P" then "Present" else "Absent".

(** The updater [handleMark] passes to [setAttendance]. *)
Definition handleMark_updater (date : string) (w : Worker) (status : string)
    (prev : AttendanceTable) : AttendanceTable :=
  let copy := prev in
  let copy := <[date := <[worker_id w := status]> (default ∅ (copy !! date))]> copy in
  copy.

(** [handleMark(w, status)] *)
Definition handleMark (w : Worker) (status : string) (st : AppState) : AppState :=
  mkApp (supervisor st) (workers st)
        (handleMark_updater (date st) w status (attendance st))
        (date st)
        (toasts st ++ [(worker_name w ++ " marked " ++ statusLabel status)%string]).

(** The updater [handleBulk] passes to [setAttendance]. *)
Definition handleBulk_updater (date : string) (workers : list Worker)
    (status : string) (prev : AttendanceTable) : AttendanceTable :=
  let copy := prev in
  let day := default ∅ (copy !! date) in
  let day := fold_left (fun day w => assignProp day (worker_id w) status) workers day in
  let copy := <[date := day]> copy in
  copy.

(** [handleBulk(status)] *)
Definition handleBulk (status : string) (st : AppState) : AppState :=
  mkApp (supervisor st) (workers st)
        (handleBulk_updater (date st) (workers st) status (attendance st))
        (date st)
        (toasts st ++ [("All workers set to " ++ statusLabel status)%string]).

(** [logout()] *)
Definition logout (st : AppState) : AppState :=
  mkApp None (workers st) (attendance st) (date st)
        (toasts st ++ ["Logged out"]).

(** [onLogin = setSupervisor], called with the selected supervisor. *)
Definition login (s : option Supervisor) (st : AppState) : AppState :=
  mkApp s (workers st) (attendance st) (date st) (toasts st).

(** [setDate(e.target.value)] *)
Definition setDate (d : string) (st : AppState) : AppState :=
  mkApp (supervisor st) (workers st) (attendance st) d (toasts st).

(** [const autoAbsentList = useMemo(() => computeAutoAbsent(attendance, workers), ...)] *)
Definition autoAbsentList (now : Z) (st : AppState) : list Worker :=
  computeAutoAbsent now (attendance st) (workers st).

(** ** Vocabulary of the statements *)

(** A table is well formed when every stored status is ["P"] or ["A"]. *)
Definition well_formed (attendance : AttendanceTable) : Prop :=
  map_Forall (fun _ sheet => map_Forall (fun _ s => s = "P" \/ s = "A") sheet)
             attendance.

(** The three sheets the rule reads, newest first. *)
Definition lastThreeSheets (now : Z) (attendance : AttendanceTable)
    : list DayRecords :=
  [ recordsOn attendance (dateOffset now (-1));
    recordsOn attendance (dateOffset now (-2));
    recordsOn attendance (dateOffset now (-3)) ].

(** The test [computeAutoAbsent] applies to each worker. *)
Definition allAbsent (now : Z) (attendance : AttendanceTable) (w : Worker) : bool :=
  forallb (absentIn w) (lastThreeSheets now attendance).

(** ** Write-through: [saveLS] and the [useEffect] hooks *)

(** [localStorage.setItem(key, value)]; a store that is full, on which
    [setItem] throws as well, is not modelled. *)
Definition setItem (ls : LocalStorage) (key value : string)
    : completion LocalStorage :=
  match ls with
  | Available items => Normal (Available (<[key := value]> items))
  | Denied e => Throw e
  end.

Section Saver.

(** [JSON.stringify] at the type of the stored record. *)
Context {V : Type} (JSON_stringify : V -> string).

(** [saveLS(key, value)] *)
Definition saveLS (ls : LocalStorage) (key : string) (value : V)
    : completion LocalStorage :=
  setItem ls key (JSON_stringify value).

End Saver.

Section AppEffects.

Context (stringifySupervisor : option Supervisor -> string)
        (stringifyWorkers : list Worker -> string)
        (stringifyAttendance : AttendanceTable -> string).

(** The three [useEffect] hooks of [App], in source order, as they run
    after a render in which the three cells are new. *)
Definition App_effects (st : AppState) (ls : LocalStorage)
    : completion LocalStorage :=
  bind (saveLS stringifyWorkers ls LS_KEYS_workers (workers st)) (fun ls =>
  bind (saveLS stringifyAttendance ls LS_KEYS_attendance (attendance st)) (fun ls =>
  saveLS stringifySupervisor ls LS_KEYS_supervisor (supervisor st))).

End AppEffects.

(** ** The summary counters *)

(** [Object.values(sheet).filter((s) => s === x).length]; a count does
    not depend on the order in which [Object.values] lists the sheet. *)
Definition countStatus (x : string) (sheet : DayRecords) : nat :=
  length (filter (fun s => s = x) (snd <$> map_to_list sheet)).

(** [presentCount] and [absentCount] of [App]. *)
Definition presentCount (st : AppState) : nat := countStatus "P" (todayRecords st).
Definition absentCount (st : AppState) : nat := countStatus "A" (todayRecords st).

(** One when [P] holds, zero otherwise. *)
Definition indicator (P : Prop) `{!Decision P} : nat :=
  if decide P then 1%nat else 0%nat.

(** ** Status labels *)

(** The status cell of the attendance sheet:
    [status ? (status === "P" ? "Present" : "Absent") : "Not Marked"]. *)
Definition sheetLabel (status : PropRead) : string :=
  match status with
  | Own s => if truthy s then statusLabel s else "Not Marked"
  | Inherited => "Absent"
  | Undefined => "Not Marked"
  end.

(** The status cell of [PrintableDailyReport]:
    [r === "P" ? "Present" : r === "A" ? "Absent" : "Not Marked"]. *)
Definition reportLabel (status : option string) : string :=
  match status with
  | Some s => if String.eqb s "P" then "Present"
              else if String.eqb s "A" then "Absent" else "Not Marked"
  | None => "Not Marked"
  end.

(** One row of the report table: [i + 1], name, trade, status label. *)
Record ReportRow := mkRow {
  row_no : nat;
  row_worker : string;
  row_trade : string;
  row_status : string
}.

(** The body of the table of [PrintableDailyReport]:
    [workers.map((w, i) => ...)]. *)
Definition PrintableDailyReport_rows (workers : list Worker)
    (todayRecords : DayRecords) : list ReportRow :=
  imap (fun i w => mkRow (i + 1)%nat (worker_name w) (worker_trade w)
                         (reportLabel (todayRecords !! worker_id w)))
       workers.

(** The rows of the report that read [label]. *)
Definition rowsLabelled (label : string) (rows : list ReportRow) : nat :=
  length (filter (fun r => row_status r = label) rows).

(** ** The login screen *)

(** [if (!supervisor) return <AuthScreen ... />] *)
Definition showsAuthScreen (st : AppState) : bool :=
  match supervisor st with
  | Some _ => false
  | None => true
  end.

(** The [Continue] button of [AuthScreen] with [sel] selected:
    [onLogin(SUPERVISORS.find((s) => s.id === sel))]. *)
Definition AuthScreen_continue (sel : string) (st : AppState) : AppState :=
  login (List.find (fun s => String.eqb (supervisor_id s) sel) SUPERVISORS) st.

(** ** The export: [downloadPDF] *)

Section PdfExport.

(** The host side of the export: the element looked up in the page, and
    the calls from [html2canvas] to [pdf.save], which either complete or
    throw. *)
Context {Node : Type} (getElementById : string -> option Node)
        (rasterizeAndSave : Node -> string -> completion unit).

Definition addToast (msg : string) (st : AppState) : AppState :=
  mkApp (supervisor st) (workers st) (attendance st) (date st)
        (toasts st ++ [msg]).

(** [downloadPDF()] *)
Definition downloadPDF (st : AppState) : completion AppState :=
  try_catch
    (match getElementById "printable-report" with
     | None => Normal (addToast "Printable report not found on page" st)
     | Some node =>
         bind (rasterizeAndSave node ("attendance_" ++ date st ++ ".pdf")%string)
              (fun _ => Normal (addToast "PDF downloaded" st))
     end)
    (Normal (addToast "PDF generation failed. Check console for details." st)).

End PdfExport.

(** ** The self tests: [runSelfTests] *)

(** [flagged.find((w) => w.id === id)], as a truth value. *)
Definition foundId (id : string) (flagged : list Worker) : bool :=
  match List.find (fun w => String.eqb (worker_id w) id) flagged with
  | Some _ => true
  | None => false
  end.

(** The object literal [{ [d1]: s1, [d2]: s2, [d3]: s3 }]: keys are set in
    source order, a repeated key keeps the last value. *)
Definition object3 (d1 : string) (s1 : DayRecords) (d2 : string) (s2 : DayRecords)
    (d3 : string) (s3 : DayRecords) : AttendanceTable :=
  <[d3 := s3]> (<[d2 := s2]> (<[d1 := s1]> ∅)).

(** The conditions of the four [console.assert] calls, in order. *)
Definition runSelfTests (now : Z) : list bool :=
  let workers := [mkWorker "W1" EmptyString EmptyString;
                  mkWorker "W2" EmptyString EmptyString] in
  let d1 := dateOffset now (-1) in
  let d2 := dateOffset now (-2) in
  let d3 := dateOffset now (-3) in
  let attendance :=
    object3 d1 {["W1" := "A"]} d2 {["W1" := "A"]} d3 {["W1" := "A"]} in
  let flagged := computeAutoAbsent now attendance workers in
  let attendance2 :=
    object3 d1 {["W2" := "P"]} d2 {["W2" := "A"]} d3 {["W2" := "A"]} in
  let flagged2 := computeAutoAbsent now attendance2 workers in
  let attendance3 : AttendanceTable := <[d1 := ∅]> ∅ in
  let flagged3 := computeAutoAbsent now attendance3 workers in
  let attendance4 :=
    object3 d1 {["W1" := "A"]} d2 {["W1" := "A"]} d3 {["W1" := "P"]} in
  let flagged4 := computeAutoAbsent now attendance4 workers in
  [ foundId "W1" flagged;
    negb (foundId "W2" flagged2);
    Nat.eqb (length flagged3) 2;
    negb (foundId "W1" flagged4) ].

(** ** Data of the self tests ([runSelfTests]) and of the examples *)

(** A clock reading: 2026-11-02T00:00:00Z. *)
Definition now0 : Z := 1793577600000.

Definition W1 : Worker := mkWorker "W1" EmptyString EmptyString.
Definition W2 : Worker := mkWorker "W2" EmptyString EmptyString.

(** Workers whose ids name properties inherited from
    [Object.prototype]. *)
Definition W_constructor : Worker := mkWorker "constructor" "Abdul Karim" "Mason".
Definition W_proto : Worker := mkWorker "__proto__" "Shahin Mia" "Electrician".

(** Case 1: [W1] absent on the three days. *)
Definition attendance_case1 : AttendanceTable :=
  <[dateOffset now0 (-1) := {["W1" := "A"]}]>
  (<[dateOffset now0 (-2) := {["W1" := "A"]}]>
  (<[dateOffset now0 (-3) := {["W1" := "A"]}]> ∅)).

(** Case 2: one present day for [W2]. *)
Definition attendance_case2 : AttendanceTable :=
  <[dateOffset now0 (-1) := {["W2" := "P"]}]>
  (<[dateOffset now0 (-2) := {["W2" := "A"]}]>
  (<[dateOffset now0 (-3) := {["W2" := "A"]}]> ∅)).

(** Case 3: an empty sheet for yesterday, nothing else. *)
Definition attendance_case3 : AttendanceTable :=
  <[dateOffset now0 (-1) := ∅]> ∅.

(** Case 4: two absences, then a present day. *)
Definition attendance_case4 : AttendanceTable :=
  <[dateOffset now0 (-1) := {["W1" := "A"]}]>
  (<[dateOffset now0 (-2) := {["W1" := "A"]}]>
  (<[dateOffset now0 (-3) := {["W1" := "P"]}]> ∅)).

(** A table that only holds a sheet far in the past. *)
Definition attendance_old : AttendanceTable :=
  <["1999-01-01" := {["W-101" := "P"]}]> ∅.

(** A state whose sheet for the selected date holds an entry for a
    worker id that is not on the roster. *)
Definition state_stray : AppState :=
  mkApp (Some (mkSupervisor "S-1" "Site Supervisor A")) DEFAULT_WORKERS
        (<["2026-11-02" := {["W-999" := "A"]}]> ∅) "2026-11-02" [].

(** A state whose roster holds a worker with id [__proto__], the table
    being empty. *)
Definition state_proto : AppState :=
  mkApp (Some (mkSupervisor "S-1" "Site Supervisor A")) [W_proto; W1]
        ∅ "2026-11-02" [].

(** A parser that accepts the empty object only. *)
Definition parse_empty_object (raw : string) : completion AttendanceTable :=
  if String.eqb raw "{}" then Normal ∅ else Throw "SyntaxError".

(** Codecs that know one value each: [null], the empty array, the
    empty object. *)
Definition stringify_null (v : option Supervisor) : string := "null".
Definition parse_null (raw : string) : completion (option Supervisor) :=
  if String.eqb raw "null" then Normal None else Throw "SyntaxError".
Definition stringify_empty_array (v : list Worker) : string := "[]".
Definition parse_empty_array (raw : string) : completion (list Worker) :=
  if String.eqb raw "[]" then Normal [] else Throw "SyntaxError".
Definition stringify_empty_object (v : AttendanceTable) : string := "{}".

(** A logged-out state with nothing in it, and a store holding stale
    records. *)
Definition state_blank : AppState := mkApp None [] ∅ "2026-11-02" [].
Definition storage_stale : LocalStorage :=
  Available (<[LS_KEYS_supervisor := "{stale"]> {[ "other_app" := "kept" ]}).

(** A logged-in state with the default roster and an empty table, the
    selected date being the day of [now0], and the same with the day before
    selected. *)
Definition state_fresh : AppState :=
  mkApp (Some (mkSupervisor "S-1" "Site Supervisor A")) DEFAULT_WORKERS
        ∅ "2026-11-02" [].
Definition state_yesterday : AppState :=
  mkApp (Some (mkSupervisor "S-1" "Site Supervisor A")) DEFAULT_WORKERS
        ∅ "2026-11-01" [].

(** The store after the effects have written [state_blank] over
    [storage_stale]. *)
Definition storage_blank : LocalStorage :=
  Available (<[LS_KEYS_supervisor := "null"]>
            (<[LS_KEYS_attendance := "{}"]>
            (<[LS_KEYS_workers := "[]"]>
            (<[LS_KEYS_supervisor := "{stale"]> {[ "other_app" := "kept" ]})))).

(** A page without the report element, and a host whose export works. *)
Definition no_element (id : string) : option unit := None.
Definition export_ok (node : unit) (file : string) : completion unit := Normal tt.

(** ** The calendar *)

(** [dateOffset delta] is the date of the day [delta] days from today's. *)
Lemma dateOffset_day_number (now delta : Z) :
  dateOffset now delta = Host.isoDateOfDay (now / Host.MS_PER_DAY + delta).
Proof.
  unfold dateOffset, Host.toISODate.
  rewrite Z.div_add; [reflexivity | discriminate].
Qed.

Lemma dateOffset_zero (now : Z) : dateOffset now 0 = getToday now.
Proof. unfold dateOffset, getToday. by rewrite Z.add_0_r. Qed.

(** The proofs below never look inside the calendar: the date strings
    are compared as opaque values. *)
Opaque dateOffset.

(** ** The loop of [computeAutoAbsent] is a filter *)

Lemma push_loop_filter {A : Type} (f : A -> bool) (l acc : list A) :
  fold_left (fun flagged w => if f w then flagged ++ [w] else flagged) l acc
  = acc ++ filter (fun w => f w = true) l.
Proof.
  revert acc. induction l as [|x l IH]; intros acc; simpl.
  - by rewrite app_nil_r.
  - rewrite IH, filter_cons. destruct (f x) eqn:Hx.
    + rewrite decide_True by done. by rewrite <- app_assoc.
    + rewrite decide_False by done. done.
Qed.

Lemma computeAutoAbsent_filter now att ws :
  computeAutoAbsent now att ws = filter (fun w => allAbsent now att w = true) ws.
Proof. unfold computeAutoAbsent. rewrite push_loop_filter. reflexivity. Qed.

Lemma allAbsent_true now att w :
  allAbsent now att w = true <->
  forall d : Z, d ∈ [1; 2; 3] ->
    absentIn w (recordsOn att (dateOffset now (- d))) = true.
Proof.
  unfold allAbsent, lastThreeSheets. cbn [forallb]. rewrite !andb_true_iff. split.
  - intros (H1 & H2 & H3 & _) d Hd.
    apply elem_of_cons in Hd as [-> | Hd]; [exact H1|].
    apply elem_of_cons in Hd as [-> | Hd]; [exact H2|].
    apply elem_of_cons in Hd as [-> | Hd]; [exact H3|].
    by apply elem_of_nil in Hd.
  - intros H. split; [apply (H 1) | split; [apply (H 2) | split; [apply (H 3) | done]]];
      set_solver.
Qed.

Lemma recordsOn_well_formed att d :
  well_formed att ->
  map_Forall (fun _ s => s = "P" \/ s = "A") (recordsOn att d).
Proof.
  intros Hwf. unfold recordsOn. destruct (att !! d) as [sheet|] eqn:Hd; simpl.
  - exact (Hwf d sheet Hd).
  - apply map_Forall_empty.
Qed.

Lemma absentIn_own w (m : gmap string string) s :
  m !! worker_id w = Some s ->
  absentIn w m = if truthy s then String.eqb s "A" else true.
Proof. intros Hs. unfold absentIn, readProp. by rewrite Hs. Qed.

Lemma absentIn_no_entry w (m : gmap string string) :
  m !! worker_id w = None ->
  absentIn w m = negb (inherited (worker_id w)).
Proof.
  intros Hs. unfold absentIn, readProp. rewrite Hs.
  by destruct (inherited (worker_id w)).
Qed.

(** A ["P"] on a sheet fails the test, whatever else the sheet holds. *)
Lemma absentIn_present w (m : gmap string string) :
  m !! worker_id w = Some "P" -> absentIn w m = false.
Proof. intros H. by rewrite (absentIn_own _ _ _ H). Qed.

Lemma filter_all {A : Type} (P : A -> Prop) `{!forall x, Decision (P x)} (l : list A) :
  (forall x, x ∈ l -> P x) -> filter P l = l.
Proof.
  induction l as [|x l IH]; intros Hall; [done|].
  rewrite filter_cons_True by (apply Hall; left).
  f_equal. apply IH. intros y Hy. apply Hall. by right.
Qed.

Lemma filter_agree {A : Type} (P Q : A -> Prop)
    `{!forall x, Decision (P x)} `{!forall x, Decision (Q x)} (l : list A) :
  (forall x, x ∈ l -> (P x <-> Q x)) -> filter P l = filter Q l.
Proof.
  induction l as [|x l IH]; intros Hiff; [done|].
  rewrite !filter_cons.
  assert (HT : filter P l = filter Q l).
  { apply IH. intros y Hy. apply Hiff. by right. }
  pose proof (Hiff x (list_elem_of_here x l)) as Hx.
  repeat case_decide; try tauto; by rewrite HT.
Qed.

Lemma absentIn_ext w (m1 m2 : gmap string string) :
  m1 !! worker_id w = m2 !! worker_id w -> absentIn w m1 = absentIn w m2.
Proof. intros H. unfold absentIn, readProp. by rewrite H. Qed.

(** The test of the rule, case by case: an own entry passes when it is
    the empty string or ["A"]; a missing entry passes unless the id names
    an inherited property. *)
Lemma absentIn_cases w (m : gmap string string) :
  absentIn w m = true <->
  (m !! worker_id w = None /\ inherited (worker_id w) = false) \/
  m !! worker_id w = Some EmptyString \/
  m !! worker_id w = Some "A".
Proof.
  destruct (m !! worker_id w) as [s|] eqn:Hs.
  - rewrite (absentIn_own _ _ _ Hs). destruct s as [|c s]; cbn [truthy].
    + split; [intros _; right; by left | done].
    + destruct (String.eqb_spec (String c s) "A") as [Heq|Hne].
      * rewrite Heq. split; [intros _; right; by right | done].
      * split; [done|]. intros [[? _]|[?|?]]; simplify_eq.
  - rewrite (absentIn_no_entry _ _ Hs). destruct (inherited (worker_id w)); simpl.
    + split; [done|]. intros [[_ ?]|[?|?]]; simplify_eq.
    + split; [intros _; by left | done].
Qed.

(** * The absence rule: [computeAutoAbsent] *)

(** C1. A worker whose id names an inherited property is not flagged
    although it has no entry on any of the three dates: on the well-formed
    table [attendance_case1], in which only [W1] is marked, the roster
    [[W_constructor; W1]] gives [[W1]].  This is against the rule as the
    file words it ("Missing record = Absent"). *)
Theorem computeAutoAbsent_unmarked_inherited_id :
  well_formed attendance_case1 /\
  recordsOn attendance_case1 (dateOffset now0 (-1)) !! worker_id W_constructor = None /\
  recordsOn attendance_case1 (dateOffset now0 (-2)) !! worker_id W_constructor = None /\
  recordsOn attendance_case1 (dateOffset now0 (-3)) !! worker_id W_constructor = None /\
  computeAutoAbsent now0 attendance_case1 [W_constructor; W1] = [W1].
Proof.
  split; [apply (bool_decide_unpack _); by vm_compute|].
  repeat split; by vm_compute.
Qed.

(** C2. For a roster with pairwise distinct worker ids, the list
    returned by [computeAutoAbsent] is included in the roster, keeps the
    roster's relative order (it is a sublist), and has no duplicates,
    neither of workers nor of worker ids. *)
Theorem computeAutoAbsent_sublist_NoDup (now : Z) (att : AttendanceTable)
    (ws : list Worker) :
  NoDup (worker_id <$> ws) ->
  computeAutoAbsent now att ws ⊆ ws /\
  computeAutoAbsent now att ws `sublist_of` ws /\
  NoDup (computeAutoAbsent now att ws) /\
  NoDup (worker_id <$> computeAutoAbsent now att ws).
Proof.
  intros Hids. rewrite computeAutoAbsent_filter.
  pose proof (sublist_filter (fun w => allAbsent now att w = true) ws) as Hsub.
  split; [by apply sublist_subseteq|]. split; [exact Hsub|].
  assert (Hfm : NoDup (worker_id <$> filter (fun w => allAbsent now att w = true) ws)).
  { eapply sublist_NoDup; [exact Hids|]. by apply fmap_sublist. }
  split; [|exact Hfm]. by apply NoDup_fmap_1 in Hfm.
Qed.

(** When none of the three preceding dates has a sheet, the flagged
    list is the roster without the workers whose id names an inherited
    property. *)
Lemma computeAutoAbsent_no_sheets now (att : AttendanceTable) ws :
  (forall d : Z, d ∈ [1; 2; 3] -> att !! dateOffset now (- d) = None) ->
  computeAutoAbsent now att ws
  = filter (fun w => inherited (worker_id w) = false) ws.
Proof.
  intros Hnone. rewrite computeAutoAbsent_filter. apply filter_agree.
  intros w _. rewrite allAbsent_true.
  assert (Hsheet : forall d : Z, d ∈ [1; 2; 3] ->
            absentIn w (recordsOn att (dateOffset now (- d)))
            = negb (inherited (worker_id w))).
  { intros d Hd. apply absentIn_no_entry.
    unfold recordsOn. rewrite (Hnone d Hd). apply lookup_empty. }
  split.
  - intros Hall. assert (Hmem : (1 : Z) ∈ [1; 2; 3]) by left.
    specialize (Hall 1 Hmem). rewrite (Hsheet 1 Hmem) in Hall.
    by destruct (inherited (worker_id w)).
  - intros Hw d Hd. rewrite (Hsheet d Hd). by rewrite Hw.
Qed.

(** C3. On the table with no entries at all, a roster worker whose id
    names an inherited property is left out: for every clock reading the
    roster [[W_constructor; W1]] gives [[W1]], not the whole roster. *)
Theorem computeAutoAbsent_empty_table_inherited_id (now : Z) :
  computeAutoAbsent now ∅ [W_constructor; W1] = [W1].
Proof.
  rewrite computeAutoAbsent_no_sheets by (intros d _; apply lookup_empty).
  reflexivity.
Qed.

(** C4. Two tables whose entries agree on the dates today-1, today-2
    and today-3 give the same flagged list, for every roster; hence two
    application states with that roster and those tables give the same
    [autoAbsentList], whatever their selected dates and whatever the tables
    hold on other dates. *)
Theorem computeAutoAbsent_three_days_only (now : Z) (ws : list Worker)
    (att1 att2 : AttendanceTable) :
  (forall d : Z, d ∈ [1; 2; 3] -> forall k : string,
     recordsOn att1 (dateOffset now (- d)) !! k =
     recordsOn att2 (dateOffset now (- d)) !! k) ->
  computeAutoAbsent now att1 ws = computeAutoAbsent now att2 ws /\
  (forall st1 st2 : AppState,
     workers st1 = ws -> workers st2 = ws ->
     attendance st1 = att1 -> attendance st2 = att2 ->
     autoAbsentList now st1 = autoAbsentList now st2).
Proof.
  intros Hagree.
  assert (Heq : computeAutoAbsent now att1 ws = computeAutoAbsent now att2 ws).
  { rewrite !computeAutoAbsent_filter. apply filter_agree. intros w _.
    rewrite !allAbsent_true.
    split; intros H d Hd; specialize (H d Hd);
      [rewrite <- H | rewrite <- H]; apply absentIn_ext; by rewrite Hagree. }
  split; [exact Heq|].
  intros st1 st2 Hw1 Hw2 Ha1 Ha2. unfold autoAbsentList.
  by rewrite Hw1, Hw2, Ha1, Ha2.
Qed.

(** * Marking: [handleMark] and [handleBulk] *)

(** A loop of own-property writes: the listed ids read [status], every
    other key keeps what the sheet held. *)
Lemma mark_loop_lookup (status : string) (ws : list Worker)
    (day : gmap string string) (k : string) :
  fold_left (fun day w => <[worker_id w := status]> day) ws day !! k
  = if decide (k ∈ worker_id <$> ws) then Some status else day !! k.
Proof.
  revert day. induction ws as [|w ws IH]; intros day; cbn [fold_left].
  - rewrite fmap_nil. case_decide as Hin; [by apply elem_of_nil in Hin | done].
  - rewrite IH, fmap_cons. destruct (decide (k ∈ worker_id <$> ws)) as [Hin|Hnin].
    + rewrite decide_True; [done | by right].
    + destruct (decide (k = worker_id w)) as [->|Hne].
      * rewrite lookup_insert_eq. rewrite decide_True; [done | by left].
      * rewrite lookup_insert_ne by done.
        rewrite decide_False; [done|]. by intros [?|?]%elem_of_cons.
Qed.

(** One assignment: it lands unless the key is [__proto__] and the sheet
    has no own entry of that name. *)
Lemma assignProp_lookup (day : gmap string string) (kw v k : string) :
  assignProp day kw v !! k
  = if decide (k = kw /\ (k ≠ "__proto__" \/ is_Some (day !! k)))
    then Some v else day !! k.
Proof.
  unfold assignProp. destruct (String.eqb_spec kw "__proto__") as [->|Hkw].
  - destruct (day !! "__proto__") as [old|] eqn:Hold.
    + destruct (decide (k = "__proto__")) as [->|Hk].
      * rewrite lookup_insert_eq, decide_True; [done|]. split; [done|].
        right. by rewrite Hold.
      * rewrite lookup_insert_ne by done. rewrite decide_False; [done|].
        by intros [? _].
    + rewrite decide_False; [done|]. intros [-> [?|Hsome]]; [done|].
      rewrite Hold in Hsome. by destruct Hsome.
  - destruct (decide (k = kw)) as [->|Hk].
    + rewrite lookup_insert_eq, decide_True; [done|]. split; [done|by left].
    + rewrite lookup_insert_ne by done. rewrite decide_False; [done|].
      by intros [? _].
Qed.

(** The [forEach] of [handleBulk]: a roster id reads [status], unless it
    is [__proto__] and the sheet had no own entry of that name; every
    other key keeps what the sheet held. *)
Lemma bulk_loop_lookup (status : string) (ws : list Worker)
    (day : gmap string string) (k : string) :
  fold_left (fun day w => assignProp day (worker_id w) status) ws day !! k
  = if decide (k ∈ worker_id <$> ws /\ (k ≠ "__proto__" \/ is_Some (day !! k)))
    then Some status else day !! k.
Proof.
  revert day. induction ws as [|w ws IH]; intros day; cbn [fold_left].
  - rewrite fmap_nil. rewrite decide_False; [done|].
    intros [Hin _]. by apply elem_of_nil in Hin.
  - rewrite IH, fmap_cons, assignProp_lookup.
    assert (Hstored : is_Some (Some status)) by eauto.
    pose proof (elem_of_cons (worker_id <$> ws) k (worker_id w)) as Hcons.
    repeat case_decide; try done; exfalso; tauto.
Qed.

Lemma recordsOn_insert_eq (att : AttendanceTable) d sheet :
  recordsOn (<[d := sheet]> att) d = sheet.
Proof. unfold recordsOn. by rewrite lookup_insert_eq. Qed.

(** C5. [handleBulk] does not set the status of a roster worker whose
    id is [__proto__]: on [state_proto], whose roster is [[W_proto; W1]]
    and whose table is empty, "All Present" stores ["P"] for [W1] and
    nothing for [W_proto], whose entry then reads as the inherited object
    and not as ["P"]; [handleMark] on the same worker does store ["P"]. *)
Theorem handleBulk_skips_proto_id :
  W_proto ∈ workers state_proto /\
  recordsOn (attendance (handleBulk "P" state_proto)) (date state_proto)
    !! worker_id W_proto = None /\
  readProp (recordsOn (attendance (handleBulk "P" state_proto)) (date state_proto))
           (worker_id W_proto) = Inherited /\
  recordsOn (attendance (handleBulk "P" state_proto)) (date state_proto)
    !! worker_id W1 = Some "P" /\
  recordsOn (attendance (handleMark W_proto "P" state_proto)) (date state_proto)
    !! worker_id W_proto = Some "P".
Proof.
  split; [by left|]. repeat split; by vm_compute.
Qed.

(** X27. After [handleBulk status], the selected date's sheet reads
    [status] for every roster worker whose id is not [__proto__], and for
    one whose id is [__proto__] when the sheet already had an own entry of
    that name; when it had none, it has none afterwards.  The sheet of
    every other date is the one the table held before. *)
Theorem handleBulk_marks_accepted_ids (status : string) (st : AppState) :
  (forall w : Worker, w ∈ workers st ->
     worker_id w ≠ "__proto__" \/
     is_Some (recordsOn (attendance st) (date st) !! worker_id w) ->
     recordsOn (attendance (handleBulk status st)) (date st) !! worker_id w
     = Some status) /\
  (recordsOn (attendance st) (date st) !! "__proto__" = None ->
   recordsOn (attendance (handleBulk status st)) (date st) !! "__proto__" = None) /\
  (forall d : string, d ≠ date st ->
     attendance (handleBulk status st) !! d = attendance st !! d).
Proof.
  unfold handleBulk, handleBulk_updater. cbn [attendance].
  rewrite recordsOn_insert_eq. fold (recordsOn (attendance st) (date st)).
  repeat split.
  - intros w Hw Hacc. rewrite bulk_loop_lookup.
    rewrite decide_True; [done|]. split; [by apply list_elem_of_fmap_2 | exact Hacc].
  - intros Hnone. rewrite bulk_loop_lookup.
    rewrite decide_False; [done|]. intros [_ [?|Hsome]]; [done|].
    rewrite Hnone in Hsome. by destruct Hsome.
  - intros d Hd. by rewrite lookup_insert_ne.
Qed.

(** C10. [handleBulk] keeps, on the selected date, the entry of every
    worker id that is not on the roster. *)
Theorem handleBulk_keeps_non_roster (status : string) (st : AppState)
    (k : string) :
  k ∉ worker_id <$> workers st ->
  recordsOn (attendance (handleBulk status st)) (date st) !! k
  = recordsOn (attendance st) (date st) !! k.
Proof.
  intros Hk. unfold handleBulk, handleBulk_updater. simpl.
  rewrite recordsOn_insert_eq, bulk_loop_lookup.
  rewrite decide_False; [done|]. by intros [? _].
Qed.

(** C6. After [handleMark w status], the selected date's sheet reads
    [status] for [w]; every other worker id reads on that date what it read
    before; and every other date keeps its sheet. *)
Theorem handleMark_sets_one (w : Worker) (status : string) (st : AppState) :
  recordsOn (attendance (handleMark w status st)) (date st) !! worker_id w
  = Some status /\
  (forall k : string, k ≠ worker_id w ->
     recordsOn (attendance (handleMark w status st)) (date st) !! k
     = recordsOn (attendance st) (date st) !! k) /\
  (forall d : string, d ≠ date st ->
     attendance (handleMark w status st) !! d = attendance st !! d).
Proof.
  unfold handleMark, handleMark_updater. simpl.
  rewrite recordsOn_insert_eq. repeat split.
  - apply lookup_insert_eq.
  - intros k Hk. by rewrite lookup_insert_ne.
  - intros d Hd. by rewrite lookup_insert_ne.
Qed.

(** C7. Marking a worker ["P"] and then ["A"] on the same date leaves
    ["A"] for that worker and date, and the resulting table is the one
    obtained by marking ["A"] alone: nothing of the first mark remains. *)
Theorem handleMark_last_write_wins (w : Worker) (st : AppState) :
  recordsOn (attendance (handleMark w "A" (handleMark w "P" st))) (date st)
    !! worker_id w = Some "A" /\
  attendance (handleMark w "A" (handleMark w "P" st))
  = attendance (handleMark w "A" st).
Proof.
  unfold handleMark, handleMark_updater. simpl. split.
  - rewrite recordsOn_insert_eq. apply lookup_insert_eq.
  - rewrite lookup_insert_eq. simpl. by rewrite !insert_insert_eq.
Qed.

(** * Session: [logout] *)

(** C8. [logout] sets the supervisor to the logged-out value and
    leaves the attendance table, the roster and the selected date as they
    were. *)
Theorem logout_clears_supervisor_only (st : AppState) :
  supervisor (logout st) = None /\
  attendance (logout st) = attendance st /\
  workers (logout st) = workers st /\
  date (logout st) = date st.
Proof. by repeat split. Qed.

(** * Storage: [loadLS] *)

(** C9. [loadLS] always completes normally; it returns the fallback
    when the key has no stored record, when the stored record does not
    parse, and when reading the store itself throws. *)
Theorem loadLS_never_raises {V : Type} (JSON_parse : string -> completion V)
    (ls : LocalStorage) (key : string) (fallback : V) :
  (exists v : V, loadLS JSON_parse ls key fallback = Normal v) /\
  (getItem ls key = Normal None ->
     loadLS JSON_parse ls key fallback = Normal fallback) /\
  (forall (raw e : string),
     getItem ls key = Normal (Some raw) -> JSON_parse raw = Throw e ->
     loadLS JSON_parse ls key fallback = Normal fallback) /\
  (forall e : string,
     getItem ls key = Throw e ->
     loadLS JSON_parse ls key fallback = Normal fallback).
Proof.
  unfold loadLS. repeat split.
  - destruct (getItem ls key) as [[raw|]|e]; simpl; eauto.
    destruct (truthy raw); simpl; eauto.
    destruct (JSON_parse raw); simpl; eauto.
  - by intros ->.
  - intros raw e -> Hp. simpl. rewrite Hp. by destruct (truthy raw).
  - by intros e ->.
Qed.

(** With nothing stored, [App] starts logged out, with the default
    roster and the empty table. *)
Lemma App_init_defaults pS pW pA (now : Z) :
  App_init pS pW pA now (Available ∅)
  = Normal (mkApp None DEFAULT_WORKERS ∅ (getToday now) []).
Proof. reflexivity. Qed.

(** * The self tests of [App.jsx], and the calendar *)

Example dateOffset_yesterday : dateOffset now0 (-1) = "2026-11-01".
Proof. by vm_compute. Qed.

Example dateOffset_month_start :
  map (dateOffset 1709337600000) [0; -1; -2; -3]
  = ["2024-03-02"; "2024-03-01"; "2024-02-29"; "2024-02-28"].
Proof. by vm_compute. Qed.

Example selftest_case1 : W1 ∈ computeAutoAbsent now0 attendance_case1 [W1; W2].
Proof. apply (bool_decide_unpack _). by vm_compute. Qed.

Example selftest_case2 : W2 ∉ computeAutoAbsent now0 attendance_case2 [W1; W2].
Proof. apply (bool_decide_unpack _). by vm_compute. Qed.

Example selftest_case3 :
  length (computeAutoAbsent now0 attendance_case3 [W1; W2]) = 2%nat.
Proof. by vm_compute. Qed.

Example selftest_case4 : W1 ∉ computeAutoAbsent now0 attendance_case4 [W1; W2].
Proof. apply (bool_decide_unpack _). by vm_compute. Qed.

(** A worker without any entry is flagged next to the one marked absent. *)
Example case1_flags_both :
  computeAutoAbsent now0 attendance_case1 [W1; W2] = [W1; W2].
Proof. by vm_compute. Qed.

(** * Instances of the theorems on the data above *)

Lemma computeAutoAbsent_sublist_NoDup_witness :
  NoDup (worker_id <$> DEFAULT_WORKERS) /\
  (computeAutoAbsent now0 attendance_old DEFAULT_WORKERS ⊆ DEFAULT_WORKERS /\
   computeAutoAbsent now0 attendance_old DEFAULT_WORKERS `sublist_of` DEFAULT_WORKERS /\
   NoDup (computeAutoAbsent now0 attendance_old DEFAULT_WORKERS) /\
   NoDup (worker_id <$> computeAutoAbsent now0 attendance_old DEFAULT_WORKERS)).
Proof.
  assert (Hids : NoDup (worker_id <$> DEFAULT_WORKERS)).
  { apply (bool_decide_unpack _). by vm_compute. }
  split; [exact Hids|].
  exact (computeAutoAbsent_sublist_NoDup now0 attendance_old DEFAULT_WORKERS Hids).
Defined.

Lemma computeAutoAbsent_three_days_only_witness :
  (forall d : Z, d ∈ [1; 2; 3] -> forall k : string,
     recordsOn ∅ (dateOffset now0 (- d)) !! k
     = recordsOn attendance_old (dateOffset now0 (- d)) !! k) /\
  computeAutoAbsent now0 ∅ DEFAULT_WORKERS
  = computeAutoAbsent now0 attendance_old DEFAULT_WORKERS.
Proof.
  assert (Hagree : forall d : Z, d ∈ [1; 2; 3] -> forall k : string,
            recordsOn ∅ (dateOffset now0 (- d)) !! k
            = recordsOn attendance_old (dateOffset now0 (- d)) !! k).
  { intros d Hd k.
    cut (recordsOn ∅ (dateOffset now0 (- d))
         = recordsOn attendance_old (dateOffset now0 (- d))); [by intros ->|].
    apply elem_of_cons in Hd as [-> | Hd]; [vm_compute; reflexivity|].
    apply elem_of_cons in Hd as [-> | Hd]; [vm_compute; reflexivity|].
    apply elem_of_cons in Hd as [-> | Hd]; [vm_compute; reflexivity|].
    by apply elem_of_nil in Hd. }
  split; [exact Hagree|].
  exact (proj1 (computeAutoAbsent_three_days_only
                  now0 DEFAULT_WORKERS ∅ attendance_old Hagree)).
Defined.

Lemma handleBulk_keeps_non_roster_witness :
("W-999" ∉ worker_id <$> workers state_stray) /\
  recordsOn (attendance (handleBulk "P" state_stray)) (date state_stray) !! "W-999"
  = Some "A".
Proof.
  assert (Hk : "W-999" ∉ worker_id <$> workers state_stray).
  { apply (bool_decide_unpack _). by vm_compute. }
  split; [exact Hk|].
  rewrite (handleBulk_keeps_non_roster "P" state_stray "W-999" Hk).
  by vm_compute.
Defined.

Lemma handleMark_sets_one_witness :
  recordsOn (attendance (handleMark (mkWorker "W-101" "Abdul Karim" "Mason") "P" state_stray))
            (date state_stray) !! "W-999"
  = Some "A" /\
  attendance (handleMark (mkWorker "W-101" "Abdul Karim" "Mason") "P" state_stray)
    !! "2026-11-01" = None.
Proof.
  destruct (handleMark_sets_one (mkWorker "W-101" "Abdul Karim" "Mason") "P" state_stray)
    as (_ & Hothers & Hframe).
  split.
  - rewrite (Hothers "W-999"); [by vm_compute | discriminate].
  - rewrite (Hframe "2026-11-01"); [by vm_compute | discriminate].
Defined.

Lemma loadLS_never_raises_witness :
  loadLS parse_empty_object
         (Available {[ LS_KEYS_attendance := "{broken" ]}) LS_KEYS_attendance ∅
  = Normal ∅ /\
  loadLS parse_empty_object (Available ∅) LS_KEYS_attendance ∅ = Normal ∅.
Proof.
  split.
  - destruct (loadLS_never_raises parse_empty_object
                (Available {[ LS_KEYS_attendance := "{broken" ]})
                LS_KEYS_attendance ∅) as (_ & _ & Hparse & _).
    apply (Hparse "{broken" "SyntaxError"); by vm_compute.
  - destruct (loadLS_never_raises parse_empty_object (Available ∅)
                LS_KEYS_attendance ∅) as (_ & Habsent & _).
    apply Habsent. by vm_compute.
Defined.

(** * Storage: [saveLS], [loadLS] and the effects of [App] *)

Lemma LS_KEYS_distinct :
  LS_KEYS_workers ≠ LS_KEYS_attendance /\
  LS_KEYS_workers ≠ LS_KEYS_supervisor /\
  LS_KEYS_attendance ≠ LS_KEYS_supervisor.
Proof. repeat split; apply (bool_decide_unpack _); by vm_compute. Qed.

Lemma saveLS_Normal_inv {V : Type} (stringify : V -> string) ls key v ls' :
  saveLS stringify ls key v = Normal ls' ->
  exists items, ls = Available items /\
                ls' = Available (<[key := stringify v]> items).
Proof.
  unfold saveLS, setItem. destruct ls as [items|e]; [|discriminate].
  intros [= <-]. eauto.
Qed.

Lemma loadLS_stored {V : Type} (parse : string -> completion V) items key fb raw v :
  items !! key = Some raw -> truthy raw = true -> parse raw = Normal v ->
  loadLS parse (Available items) key fb = Normal v.
Proof. intros Hk Ht Hp. unfold loadLS. simpl. by rewrite Hk, Ht, Hp. Qed.

(** X1. A stored record that is not the empty string and that parses is
    returned as parsed, whatever the fallback is; a stored empty string
    gives the fallback without being parsed. *)
Theorem loadLS_stored_record {V : Type} (JSON_parse : string -> completion V)
    (ls : LocalStorage) (key : string) (fallback : V) :
  (forall (raw : string) (v : V),
     getItem ls key = Normal (Some raw) -> truthy raw = true ->
     JSON_parse raw = Normal v ->
     loadLS JSON_parse ls key fallback = Normal v) /\
  (getItem ls key = Normal (Some EmptyString) ->
     loadLS JSON_parse ls key fallback = Normal fallback).
Proof.
  unfold loadLS. split.
  - intros raw v -> Ht Hp. simpl. by rewrite Ht, Hp.
  - by intros ->.
Qed.

(** X2. What [saveLS] wrote, [loadLS] reads back: if the value
    serialises to a non-empty string that parses back to the value, a
    [loadLS] of the same key after a completed [saveLS] returns the value
    and not the fallback. *)
Theorem saveLS_loadLS_roundtrip {V : Type} (JSON_stringify : V -> string)
    (JSON_parse : string -> completion V)
    (ls ls' : LocalStorage) (key : string) (value fallback : V) :
  saveLS JSON_stringify ls key value = Normal ls' ->
  truthy (JSON_stringify value) = true ->
  JSON_parse (JSON_stringify value) = Normal value ->
  loadLS JSON_parse ls' key fallback = Normal value.
Proof.
  intros (items & -> & ->)%saveLS_Normal_inv Ht Hp.
  eapply loadLS_stored; [apply lookup_insert_eq | done | done].
Qed.

(** X3. [saveLS] touches one key: loading any other key gives the same
    result after the save as before, for every parser and fallback. *)
Theorem saveLS_other_key {V W : Type} (JSON_stringify : V -> string)
    (JSON_parse : string -> completion W)
    (ls ls' : LocalStorage) (key key' : string) (value : V) (fallback : W) :
  saveLS JSON_stringify ls key value = Normal ls' ->
  key' ≠ key ->
  loadLS JSON_parse ls' key' fallback = loadLS JSON_parse ls key' fallback.
Proof.
  intros (items & -> & ->)%saveLS_Normal_inv Hne.
  unfold loadLS. simpl. by rewrite lookup_insert_ne.
Qed.

(** X4. A reload restores the session: after the effects of [App] have
    written a state to the store, [App_init] on that store gives back the
    state's supervisor, roster and table, provided each of the three
    values serialises to a non-empty string that parses back to it.  The
    selected date restarts at today and no notification is pending. *)
Theorem App_effects_init_roundtrip
    (sS : option Supervisor -> string) (sW : list Worker -> string)
    (sA : AttendanceTable -> string)
    (pS : string -> completion (option Supervisor))
    (pW : string -> completion (list Worker))
    (pA : string -> completion AttendanceTable)
    (now : Z) (st : AppState) (ls ls' : LocalStorage) :
  App_effects sS sW sA st ls = Normal ls' ->
  truthy (sS (supervisor st)) = true -> pS (sS (supervisor st)) = Normal (supervisor st) ->
  truthy (sW (workers st)) = true -> pW (sW (workers st)) = Normal (workers st) ->
  truthy (sA (attendance st)) = true -> pA (sA (attendance st)) = Normal (attendance st) ->
  App_init pS pW pA now ls'
  = Normal (mkApp (supervisor st) (workers st) (attendance st) (getToday now) []).
Proof.
  intros Heff HtS HpS HtW HpW HtA HpA.
  destruct LS_KEYS_distinct as (Hwa & Hws & Has).
  unfold App_effects, saveLS, setItem in Heff.
  destruct ls as [items|e]; [|discriminate]. simpl in Heff.
  injection Heff as <-. unfold App_init.
  rewrite (loadLS_stored pS _ _ _ _ _ (lookup_insert_eq _ _ _) HtS HpS). simpl.
  erewrite (loadLS_stored pW); [| |exact HtW|exact HpW]; simpl.
  2:{ rewrite lookup_insert_ne by congruence.
      rewrite lookup_insert_ne by congruence. apply lookup_insert_eq. }
  erewrite (loadLS_stored pA); [| |exact HtA|exact HpA]; simpl.
  2:{ rewrite lookup_insert_ne by congruence. apply lookup_insert_eq. }
  reflexivity.
Qed.

(** X5. On a store the page may not access, start-up falls back to the
    default state (logged out, default roster, empty table), but the
    write-through is not guarded: the first effect throws the store's
    error. *)
Theorem denied_storage_read_defaults_write_throws
    (sS : option Supervisor -> string) (sW : list Worker -> string)
    (sA : AttendanceTable -> string)
    (pS : string -> completion (option Supervisor))
    (pW : string -> completion (list Worker))
    (pA : string -> completion AttendanceTable)
    (now : Z) (st : AppState) (e : string) :
  App_init pS pW pA now (Denied e)
  = Normal (mkApp None DEFAULT_WORKERS ∅ (getToday now) []) /\
  App_effects sS sW sA st (Denied e) = Throw e.
Proof. split; reflexivity. Qed.

(** * The summary counters *)

Lemma countStatus_empty x : countStatus x ∅ = 0%nat.
Proof. unfold countStatus. by rewrite map_to_list_empty. Qed.

Lemma countStatus_insert_fresh x (m : gmap string string) k s :
  m !! k = None ->
  countStatus x (<[k := s]> m) = (indicator (s = x) + countStatus x m)%nat.
Proof.
  intros Hk. unfold countStatus, indicator.
  rewrite (map_to_list_insert m k s Hk), fmap_cons, filter_cons. simpl.
  by case_decide.
Qed.

Lemma countStatus_delete x (m : gmap string string) k s :
  m !! k = Some s ->
  countStatus x m = (indicator (s = x) + countStatus x (delete k m))%nat.
Proof.
  intros Hk.
  rewrite <- (countStatus_insert_fresh x (delete k m) k s) by apply lookup_delete_eq.
  by rewrite insert_delete_id.
Qed.

Lemma countStatus_insert x (m : gmap string string) k s :
  (countStatus x (<[k := s]> m) + indicator (m !! k = Some x)
   = countStatus x m + indicator (s = x))%nat.
Proof.
  destruct (m !! k) as [old|] eqn:Hk.
  - rewrite <- (insert_delete_eq m k s).
    rewrite countStatus_insert_fresh by apply lookup_delete_eq.
    rewrite (countStatus_delete x m k old Hk).
    unfold indicator. repeat case_decide; simplify_eq; lia.
  - rewrite countStatus_insert_fresh by done.
    unfold indicator. repeat case_decide; simplify_eq; lia.
Qed.

Lemma countStatus_partition (m : gmap string string) :
  (countStatus "P" m + countStatus "A" m <= size m)%nat /\
  (map_Forall (fun _ s => s = "P" \/ s = "A") m ->
   (countStatus "P" m + countStatus "A" m = size m)%nat).
Proof.
  induction m as [|k s m Hk _ [IHle IHeq]] using map_first_key_ind.
  - rewrite !countStatus_empty, map_size_empty. split; [lia|done].
  - rewrite !countStatus_insert_fresh, map_size_insert_None by done.
    unfold indicator. split.
    + repeat case_decide; simplify_eq; lia.
    + intros [Hs Hm]%map_Forall_insert; [|done]. specialize (IHeq Hm).
      destruct Hs as [-> | ->]; repeat case_decide; simplify_eq; lia.
Qed.

(** X6. The two counters of the summary never exceed, together, the
    number of entries of the selected date's sheet; they add up to it when
    every stored status is ["P"] or ["A"]. *)
Theorem counters_partition (st : AppState) :
  (presentCount st + absentCount st <= size (todayRecords st))%nat /\
  (well_formed (attendance st) ->
   (presentCount st + absentCount st = size (todayRecords st))%nat).
Proof.
  unfold presentCount, absentCount. split.
  - apply countStatus_partition.
  - intros Hwf. apply countStatus_partition.
    by apply recordsOn_well_formed.
Qed.

Lemma todayRecords_handleMark w s st :
  todayRecords (handleMark w s st) = <[worker_id w := s]> (todayRecords st).
Proof.
  unfold todayRecords, handleMark, handleMark_updater. simpl.
  by rewrite recordsOn_insert_eq.
Qed.

(** X7. [handleMark] moves the counters by the entry it replaces: the
    present count after the mark, plus one if the worker was marked ["P"]
    before, is the count before plus one if the new status is ["P"]; the
    same holds of the absent count and ["A"]. *)
Theorem handleMark_counters (w : Worker) (status : string) (st : AppState) :
  (presentCount (handleMark w status st)
   + indicator (todayRecords st !! worker_id w = Some "P")
   = presentCount st + indicator (status = "P"))%nat /\
  (absentCount (handleMark w status st)
   + indicator (todayRecords st !! worker_id w = Some "A")
   = absentCount st + indicator (status = "A"))%nat.
Proof.
  unfold presentCount, absentCount. rewrite todayRecords_handleMark.
  split; apply countStatus_insert.
Qed.

Lemma todayRecords_handleBulk s st :
  todayRecords (handleBulk s st)
  = fold_left (fun day w => assignProp day (worker_id w) s) (workers st) (todayRecords st).
Proof.
  unfold todayRecords, handleBulk, handleBulk_updater. simpl.
  by rewrite recordsOn_insert_eq.
Qed.

(** A sheet in which exactly the roster ids are marked, all with [s]. *)
Lemma uniform_sheet_counts (s : string) (ws : list Worker) (m : gmap string string) :
  NoDup (worker_id <$> ws) ->
  (forall k, m !! k = if decide (k ∈ worker_id <$> ws) then Some s else None) ->
  countStatus s m = length ws /\ forall x, x ≠ s -> countStatus x m = 0%nat.
Proof.
  intros Hnd Hm.
  set (l := (fun w => (worker_id w, s)) <$> ws).
  assert (Hfst : l.*1 = worker_id <$> ws).
  { unfold l. rewrite <- list_fmap_compose. done. }
  assert (Hsnd : l.*2 = replicate (length ws) s).
  { unfold l. rewrite <- list_fmap_compose. clear.
    induction ws as [|w ws IH]; [done|]. simpl. by rewrite <- IH. }
  assert (Heq : m = list_to_map l).
  { apply map_eq. intros k. rewrite Hm. case_decide as Hk.
    - symmetry. apply elem_of_list_to_map_1; [by rewrite Hfst|].
      apply list_elem_of_fmap in Hk as (w & -> & Hw).
      unfold l. apply list_elem_of_fmap. by exists w.
    - symmetry. apply not_elem_of_list_to_map_1. by rewrite Hfst. }
  assert (Hperm : map_to_list m ≡ₚ l).
  { rewrite Heq. apply map_to_list_to_map. by rewrite Hfst. }
  unfold countStatus. split.
  - rewrite Hperm, Hsnd. clear. induction (length ws) as [|n IH]; [done|].
    simpl. rewrite filter_cons_True by done. simpl. by rewrite IH.
  - intros x Hx. rewrite Hperm, Hsnd. clear -Hx.
    induction (length ws) as [|n IH]; [done|].
    simpl. rewrite filter_cons_False; [exact IH | congruence].
Qed.

(** The roster workers under whose id an assignment to the sheet [m]
    lands are all of them, but for one whose id is [__proto__] when [m]
    has no own entry of that name. *)
Lemma accepted_roster_length (m : gmap string string) (ws : list Worker) :
  NoDup (worker_id <$> ws) ->
  (length (filter (fun w => worker_id w ≠ "__proto__" \/ is_Some (m !! worker_id w)) ws)
   + indicator ("__proto__" ∈ worker_id <$> ws /\ m !! "__proto__" = None)
   = length ws)%nat.
Proof.
  induction ws as [|w ws IH]; intros Hnd.
  - unfold indicator. rewrite decide_False; [done|].
    intros [Hin _]. by apply elem_of_nil in Hin.
  - rewrite fmap_cons in Hnd. apply NoDup_cons in Hnd as [Hw Hnd].
    specialize (IH Hnd). rewrite filter_cons, fmap_cons.
    unfold indicator in *.
    destruct (decide ("__proto__" ∈ worker_id <$> ws /\ m !! "__proto__" = None))
      as [[Hin Hnone]|Hrest];
    destruct (decide ("__proto__" ∈ worker_id w :: (worker_id <$> ws) /\
                      m !! "__proto__" = None)) as [[Hin' Hnone']|Hall];
    destruct (decide (worker_id w ≠ "__proto__" \/ is_Some (m !! worker_id w)))
      as [Hacc|Hskip]; cbn [length]; try lia; exfalso.
    + apply Hskip. left. intros Hid. apply Hw. by rewrite Hid.
    + apply Hall. split; [by right | done].
    + apply Hall. split; [by right | done].
    + apply elem_of_cons in Hin' as [Hid|Hin]; [|by apply Hrest].
      destruct Hacc as [Hne|Hsome]; [done|].
      rewrite <- Hid, Hnone' in Hsome. by destruct Hsome.
    + apply Hall. destruct (decide (worker_id w = "__proto__")) as [Hid|Hid].
      * split; [rewrite Hid; by left|].
        destruct (m !! "__proto__") as [old|] eqn:Hold; [|done].
        exfalso. apply Hskip. right. rewrite Hid, Hold. eauto.
      * exfalso. apply Hskip. by left.
Qed.

(** X8. When the roster ids are pairwise distinct and the selected
    date's sheet holds no entry under an id outside the roster, "All
    Present" makes the absent count zero and the present count the size of
    the roster, less one when a roster worker has the id [__proto__] and
    the sheet had no entry of that name; "All Absent" does the converse. *)
Theorem handleBulk_counters (st : AppState) :
  NoDup (worker_id <$> workers st) ->
  (forall k : string, is_Some (todayRecords st !! k) -> k ∈ worker_id <$> workers st) ->
  ((presentCount (handleBulk "P" st)
    + indicator ("__proto__" ∈ worker_id <$> workers st /\
                 todayRecords st !! "__proto__" = None)
    = length (workers st))%nat /\
   absentCount (handleBulk "P" st) = 0%nat) /\
  ((absentCount (handleBulk "A" st)
    + indicator ("__proto__" ∈ worker_id <$> workers st /\
                 todayRecords st !! "__proto__" = None)
    = length (workers st))%nat /\
   presentCount (handleBulk "A" st) = 0%nat).
Proof.
  intros Hnd Hdom.
  set (accepted := filter (fun w => worker_id w ≠ "__proto__" \/
                                     is_Some (todayRecords st !! worker_id w))
                          (workers st)).
  assert (Hacc : forall k, k ∈ worker_id <$> accepted <->
            k ∈ worker_id <$> workers st /\
            (k ≠ "__proto__" \/ is_Some (todayRecords st !! k))).
  { intros k. unfold accepted. rewrite !list_elem_of_fmap. split.
    - intros (w & -> & [Hw Hin]%list_elem_of_filter). split; [by exists w | exact Hw].
    - intros [(w & -> & Hin) Hw]. exists w. split; [done|].
      by apply list_elem_of_filter. }
  assert (Hsheet : forall s k,
    todayRecords (handleBulk s st) !! k
    = if decide (k ∈ worker_id <$> accepted) then Some s else None).
  { intros s k. rewrite todayRecords_handleBulk, bulk_loop_lookup.
    destruct (decide (k ∈ worker_id <$> accepted)) as [Hk|Hk].
    - rewrite decide_True; [done | by apply Hacc].
    - rewrite decide_False by (intros ?; by apply Hk, Hacc).
      destruct (todayRecords st !! k) as [old|] eqn:Hl; [|done].
      exfalso. apply Hk, Hacc. split; [apply Hdom|right]; by rewrite Hl. }
  assert (Hnd' : NoDup (worker_id <$> accepted)).
  { eapply sublist_NoDup; [exact Hnd|]. apply fmap_sublist, sublist_filter. }
  pose proof (accepted_roster_length (todayRecords st) (workers st) Hnd) as Hlen.
  fold accepted in Hlen.
  unfold presentCount, absentCount.
  destruct (uniform_sheet_counts "P" accepted _ Hnd' (Hsheet "P")) as [HP HPo].
  destruct (uniform_sheet_counts "A" accepted _ Hnd' (Hsheet "A")) as [HA HAo].
  rewrite HP, HA. repeat split; [exact Hlen | by apply HPo | exact Hlen | by apply HAo].
Qed.

(** * Status labels and the report *)

(** X9. On a sheet whose statuses are all ["P"] or ["A"]: for a worker
    that has an entry, or whose id names no inherited property, the status
    cell of the attendance sheet and the one of the printed report show
    the same label, and the absence rule counts the worker as absent on
    that sheet exactly when that label is not "Present".  For a worker
    without entry whose id names an inherited property, the sheet shows
    "Absent", the report "Not Marked", and the rule does not count the
    worker as absent. *)
Theorem labels_on_well_formed_sheet (w : Worker) (m : gmap string string) :
  map_Forall (fun _ s => s = "P" \/ s = "A") m ->
  (is_Some (m !! worker_id w) \/ inherited (worker_id w) = false ->
   sheetLabel (readProp m (worker_id w)) = reportLabel (m !! worker_id w) /\
   (absentIn w m = true <-> reportLabel (m !! worker_id w) ≠ "Present")) /\
  (m !! worker_id w = None -> inherited (worker_id w) = true ->
   sheetLabel (readProp m (worker_id w)) = "Absent" /\
   reportLabel (m !! worker_id w) = "Not Marked" /\
   absentIn w m = false).
Proof.
  intros Hm. unfold absentIn, readProp. split.
  - intros Hcase. destruct (m !! worker_id w) as [s|] eqn:Hs.
    + destruct (Hm _ _ Hs) as [-> | ->]; simpl; split; done.
    + destruct Hcase as [[? ?]|Hinh]; [done|]. rewrite Hinh. by split.
  - intros -> ->. by repeat split.
Qed.

Lemma reportLabel_Present (o : option string) :
  reportLabel o = "Present" <-> o = Some "P".
Proof.
  destruct o as [s|]; simpl; [|done].
  destruct (String.eqb_spec s "P") as [->|HP]; [done|].
  destruct (String.eqb_spec s "A") as [->|HA]; split; intros H; simplify_eq.
Qed.

Lemma reportLabel_Absent (o : option string) :
  reportLabel o = "Absent" <-> o = Some "A".
Proof.
  destruct o as [s|]; simpl; [|done].
  destruct (String.eqb_spec s "P") as [->|HP]; [done|].
  destruct (String.eqb_spec s "A") as [->|HA]; split; intros H; simplify_eq; done.
Qed.

(** The row numbers play no part in counting labels. *)
Lemma rowsLabelled_imap (g : nat -> nat) label (ws : list Worker)
    (m : gmap string string) :
  rowsLabelled label
    (imap (fun i w => mkRow (g i) (worker_name w) (worker_trade w)
                            (reportLabel (m !! worker_id w))) ws)
  = length (filter (fun w => reportLabel (m !! worker_id w) = label) ws).
Proof.
  unfold rowsLabelled. revert g. induction ws as [|w ws IH]; intros g; [done|].
  rewrite imap_cons, !filter_cons. simpl.
  specialize (IH (g ∘ S)). unfold compose in *.
  case_decide; simpl; by rewrite IH.
Qed.

Lemma countStatus_delete_any x (m : gmap string string) k :
  countStatus x m = (indicator (m !! k = Some x) + countStatus x (delete k m))%nat.
Proof.
  destruct (m !! k) as [s|] eqn:Hk.
  - rewrite (countStatus_delete x m k s Hk). unfold indicator.
    repeat case_decide; simplify_eq; done.
  - rewrite delete_id by done. unfold indicator. by rewrite decide_False.
Qed.

(** Roster workers marked [x], against entries marked [x]. *)
Lemma marked_roster_count x (ws : list Worker) (m : gmap string string) :
  NoDup (worker_id <$> ws) ->
  (length (filter (fun w => m !! worker_id w = Some x) ws) <= countStatus x m)%nat /\
  ((forall k, is_Some (m !! k) -> k ∈ worker_id <$> ws) ->
   length (filter (fun w => m !! worker_id w = Some x) ws) = countStatus x m).
Proof.
  revert m. induction ws as [|w ws IH]; intros m Hnd.
  - split; [simpl; lia|]. intros Hdom.
    assert (m = ∅) as ->.
    { apply map_empty. intros k. destruct (m !! k) eqn:Hk; [|done].
      exfalso. eapply not_elem_of_nil, (Hdom k). by rewrite Hk. }
    by rewrite countStatus_empty.
  - rewrite fmap_cons in Hnd. apply NoDup_cons in Hnd as [Hw Hnd].
    destruct (IH (delete (worker_id w) m) Hnd) as [IHle IHeq].
    assert (Hrest :
      filter (fun w' => m !! worker_id w' = Some x) ws
      = filter (fun w' => delete (worker_id w) m !! worker_id w' = Some x) ws).
    { apply filter_agree. intros w' Hw'.
      rewrite lookup_delete_ne; [done|].
      intros Heq. apply Hw. rewrite Heq. by apply list_elem_of_fmap_2. }
    rewrite filter_cons, (countStatus_delete_any x m (worker_id w)), Hrest.
    unfold indicator. split.
    + case_decide; simpl; lia.
    + intros Hdom. rewrite <- IHeq.
      * by case_decide.
      * intros k [v Hk]. destruct (decide (k = worker_id w)) as [->|Hne].
        { by rewrite lookup_delete_eq in Hk. }
        rewrite lookup_delete_ne in Hk by done.
        assert (Hin : k ∈ worker_id <$> w :: ws) by (apply Hdom; by rewrite Hk).
        rewrite fmap_cons in Hin. by apply elem_of_cons in Hin as [?|?].
Qed.

Lemma rowsLabelled_Present ws (m : gmap string string) :
  rowsLabelled "Present" (PrintableDailyReport_rows ws m)
  = length (filter (fun w => m !! worker_id w = Some "P") ws).
Proof.
  unfold PrintableDailyReport_rows. rewrite rowsLabelled_imap. f_equal.
  apply filter_agree. intros w _. apply reportLabel_Present.
Qed.

Lemma rowsLabelled_Absent ws (m : gmap string string) :
  rowsLabelled "Absent" (PrintableDailyReport_rows ws m)
  = length (filter (fun w => m !! worker_id w = Some "A") ws).
Proof.
  unfold PrintableDailyReport_rows. rewrite rowsLabelled_imap. f_equal.
  apply filter_agree. intros w _. apply reportLabel_Absent.
Qed.

(** X10. With pairwise distinct roster ids, the report never shows more
    "Present" rows than the present count of the summary, nor more "Absent"
    rows than the absent count; and the numbers are equal when the selected
    date's sheet holds no entry under an id outside the roster. *)
Theorem report_rows_match_counters (st : AppState) :
  NoDup (worker_id <$> workers st) ->
  ((rowsLabelled "Present" (PrintableDailyReport_rows (workers st) (todayRecords st))
    <= presentCount st)%nat /\
   (rowsLabelled "Absent" (PrintableDailyReport_rows (workers st) (todayRecords st))
    <= absentCount st)%nat) /\
  ((forall k : string, is_Some (todayRecords st !! k) -> k ∈ worker_id <$> workers st) ->
   rowsLabelled "Present" (PrintableDailyReport_rows (workers st) (todayRecords st))
   = presentCount st /\
   rowsLabelled "Absent" (PrintableDailyReport_rows (workers st) (todayRecords st))
   = absentCount st).
Proof.
  intros Hnd. rewrite rowsLabelled_Present, rowsLabelled_Absent.
  unfold presentCount, absentCount.
  destruct (marked_roster_count "P" _ (todayRecords st) Hnd) as [HPle HPeq].
  destruct (marked_roster_count "A" _ (todayRecords st) Hnd) as [HAle HAeq].
  split; [by split|]. intros Hdom. split; [by apply HPeq | by apply HAeq].
Qed.

(** X11. Selecting a date for which the table has no sheet changes no
    stored data and shows an unmarked day: both counters are zero and every
    row of the report, one per roster worker, reads "Not Marked". *)
Theorem setDate_unrecorded_day (d : string) (st : AppState) :
  attendance st !! d = None ->
  attendance (setDate d st) = attendance st /\
  presentCount (setDate d st) = 0%nat /\
  absentCount (setDate d st) = 0%nat /\
  length (PrintableDailyReport_rows (workers (setDate d st)) (todayRecords (setDate d st)))
  = length (workers st) /\
  (forall r : ReportRow,
     r ∈ PrintableDailyReport_rows (workers (setDate d st)) (todayRecords (setDate d st)) ->
     row_status r = "Not Marked").
Proof.
  intros Hd.
  assert (Hsheet : todayRecords (setDate d st) = ∅).
  { unfold todayRecords, recordsOn, setDate. simpl. by rewrite Hd. }
  unfold presentCount, absentCount. rewrite Hsheet, !countStatus_empty.
  repeat split.
  - unfold PrintableDailyReport_rows. by rewrite length_imap.
  - intros r Hr. unfold PrintableDailyReport_rows in Hr.
    apply list_elem_of_lookup in Hr as [i Hi].
    rewrite list_lookup_imap in Hi.
    destruct (workers (setDate d st) !! i) as [w|]; simplify_eq/=.
    by rewrite lookup_empty.
Qed.

(** * How the marking operations compose *)

Lemma handleMark_sequence_table (s : string) (ws : list Worker) (w : Worker)
    (st : AppState) :
  attendance (fold_left (fun st w => handleMark w s st) (w :: ws) st)
  = <[date st := fold_left (fun day w => <[worker_id w := s]> day) (w :: ws)
                           (recordsOn (attendance st) (date st))]> (attendance st).
Proof.
  revert w st. induction ws as [|w' ws IH]; intros w st.
  - reflexivity.
  - change (fold_left (fun st w => handleMark w s st) (w :: w' :: ws) st)
      with (fold_left (fun st w => handleMark w s st) (w' :: ws) (handleMark w s st)).
    rewrite IH. unfold handleMark at 2 3 4, handleMark_updater. cbn [attendance date].
    rewrite recordsOn_insert_eq, insert_insert_eq. reflexivity.
Qed.

(** X12. On a non-empty roster in which no worker has the id
    [__proto__], or on whose sheet that id already has an entry, "mark all"
    leaves the table that marking the roster's workers one by one, in
    roster order, leaves.  On an empty roster it still gives the selected
    date a sheet, an empty one when the date had none.  When a roster
    worker has the id [__proto__] and the sheet has no entry of that name,
    the two differ: "mark all" stores nothing under it, the single marks
    store the status. *)
Theorem handleBulk_as_marks (status : string) (st : AppState) :
  (workers st ≠ [] ->
   ("__proto__" ∈ worker_id <$> workers st ->
    is_Some (recordsOn (attendance st) (date st) !! "__proto__")) ->
   attendance (handleBulk status st)
   = attendance (fold_left (fun st w => handleMark w status st) (workers st) st)) /\
  (workers st = [] -> attendance st !! date st = None ->
   attendance (handleBulk status st) !! date st = Some ∅) /\
  ("__proto__" ∈ worker_id <$> workers st ->
   recordsOn (attendance st) (date st) !! "__proto__" = None ->
   recordsOn (attendance (handleBulk status st)) (date st) !! "__proto__" = None /\
   recordsOn (attendance (fold_left (fun st w => handleMark w status st)
                                    (workers st) st)) (date st) !! "__proto__"
   = Some status).
Proof.
  split; [|split].
  - intros Hne Hproto. destruct (workers st) as [|w ws] eqn:Hws; [done|].
    rewrite handleMark_sequence_table.
    unfold handleBulk, handleBulk_updater. cbn [attendance]. rewrite Hws.
    fold (recordsOn (attendance st) (date st)). f_equal.
    apply map_eq. intros k. rewrite bulk_loop_lookup, mark_loop_lookup.
    destruct (decide (k ∈ worker_id <$> w :: ws)) as [Hk|Hk].
    + rewrite decide_True; [done|]. split; [done|].
      destruct (decide (k = "__proto__")) as [->|Hkp]; [right; by apply Hproto | by left].
    + rewrite decide_False; [done|]. by intros [? _].
  - intros Hws Hd. unfold handleBulk, handleBulk_updater. cbn [attendance].
    rewrite Hws, Hd. simpl. apply lookup_insert_eq.
  - intros Hin Hnone. split.
    + unfold handleBulk, handleBulk_updater. cbn [attendance].
      rewrite recordsOn_insert_eq. fold (recordsOn (attendance st) (date st)).
      rewrite bulk_loop_lookup, decide_False; [done|].
      intros [_ [?|Hsome]]; [done|]. rewrite Hnone in Hsome. by destruct Hsome.
    + destruct (workers st) as [|w ws] eqn:Hws.
      { by apply elem_of_nil in Hin. }
      rewrite handleMark_sequence_table, recordsOn_insert_eq, mark_loop_lookup.
      by rewrite decide_True.
Qed.

(** X13. A second "mark all" on the same date overrides the first
    entirely: the table after both is the table after the second alone (in
    particular, repeating a "mark all" changes nothing). *)
Theorem handleBulk_last_write_wins (s1 s2 : string) (st : AppState) :
  attendance (handleBulk s2 (handleBulk s1 st)) = attendance (handleBulk s2 st).
Proof.
  unfold handleBulk, handleBulk_updater. cbn [attendance date workers].
  rewrite lookup_insert_eq, insert_insert_eq. cbn [default from_option id]. f_equal.
  apply map_eq. intros k. rewrite !bulk_loop_lookup.
  destruct (decide (k ∈ worker_id <$> workers st /\
                    (k ≠ "__proto__" \/
                     is_Some (default ∅ (attendance st !! date st) !! k))))
    as [[Hin Hacc]|Hno]; [|by rewrite decide_False].
  rewrite decide_True; [done|]. split; [done|]. right. eauto.
Qed.

(** X14. Marks of two workers with different ids commute: either
    order leaves the same table. *)
Theorem handleMark_commute (w1 w2 : Worker) (s1 s2 : string) (st : AppState) :
  worker_id w1 ≠ worker_id w2 ->
  attendance (handleMark w1 s1 (handleMark w2 s2 st))
  = attendance (handleMark w2 s2 (handleMark w1 s1 st)).
Proof.
  intros Hne. unfold handleMark, handleMark_updater. cbn [attendance date].
  rewrite !lookup_insert_eq, !insert_insert_eq. cbn [default from_option id].
  f_equal. by apply insert_insert_ne.
Qed.

(** X15. Marking with ["P"] or ["A"], one worker or all, keeps the
    table well formed: every stored status is still ["P"] or ["A"]. *)
Theorem marks_preserve_well_formed (w : Worker) (status : string) (st : AppState) :
  well_formed (attendance st) ->
  status = "P" \/ status = "A" ->
  well_formed (attendance (handleMark w status st)) /\
  well_formed (attendance (handleBulk status st)).
Proof.
  intros Hwf Hs.
  pose proof (recordsOn_well_formed _ (date st) Hwf) as Hsheet.
  unfold recordsOn in Hsheet. split.
  - unfold handleMark, handleMark_updater. cbn [attendance].
    apply map_Forall_insert_2; [|exact Hwf]. by apply map_Forall_insert_2.
  - unfold handleBulk, handleBulk_updater. cbn [attendance].
    apply map_Forall_insert_2; [|exact Hwf].
    intros k v. rewrite bulk_loop_lookup. case_decide.
    + by intros [= <-].
    + apply Hsheet.
Qed.

(** X16. No mark removes an entry: a worker id that has an entry on
    some date before [handleMark] or [handleBulk] has one on that date
    after it. *)
Theorem marks_never_delete (w : Worker) (status : string) (st : AppState)
    (d k : string) :
  is_Some (recordsOn (attendance st) d !! k) ->
  is_Some (recordsOn (attendance (handleMark w status st)) d !! k) /\
  is_Some (recordsOn (attendance (handleBulk status st)) d !! k).
Proof.
  intros Hk. unfold handleMark, handleBulk, handleMark_updater, handleBulk_updater.
  cbn [attendance]. destruct (decide (d = date st)) as [->|Hd].
  - rewrite !recordsOn_insert_eq. split.
    + destruct (decide (k = worker_id w)) as [->|Hne].
      * rewrite lookup_insert_eq. eauto.
      * by rewrite lookup_insert_ne.
    + rewrite bulk_loop_lookup. case_decide; [eauto | exact Hk].
  - unfold recordsOn in *. by rewrite !lookup_insert_ne.
Qed.

(** * Marks and the absence rule *)


Lemma flagged_absent_on now att ws w (d : Z) :
  d ∈ [1; 2; 3] ->
  w ∈ computeAutoAbsent now att ws ->
  absentIn w (recordsOn att (dateOffset now (- d))) = true.
Proof.
  intros Hd. rewrite computeAutoAbsent_filter, list_elem_of_filter.
  intros [Hall _]. by apply allAbsent_true.
Qed.

(** X17. Marking a worker ["P"] while the selected date is one of the
    three preceding days takes every roster entry with that worker's id
    out of the flagged list, whatever the rest of the table holds. *)
Theorem handleMark_present_unflags (now : Z) (d : Z) (w w' : Worker)
    (st : AppState) :
  d ∈ [1; 2; 3] ->
  date st = dateOffset now (- d) ->
  worker_id w' = worker_id w ->
  w' ∉ autoAbsentList now (handleMark w "P" st).
Proof.
  intros Hd Hdate Hid Hin. unfold autoAbsentList in Hin.
  apply (flagged_absent_on _ _ _ _ d Hd) in Hin.
  rewrite <- Hdate in Hin.
  unfold handleMark, handleMark_updater in Hin. cbn [attendance] in Hin.
  rewrite recordsOn_insert_eq in Hin.
  rewrite (absentIn_own w' _ "P") in Hin by (rewrite Hid; apply lookup_insert_eq).
  discriminate.
Qed.

(** X18. "All Present" while the selected date is one of the three
    preceding days empties the flagged list. *)
Theorem handleBulk_present_clears_flags (now : Z) (d : Z) (st : AppState) :
  d ∈ [1; 2; 3] ->
  date st = dateOffset now (- d) ->
  autoAbsentList now (handleBulk "P" st) = [].
Proof.
  intros Hd Hdate. apply elem_of_nil_inv. intros w Hin.
  unfold autoAbsentList in Hin.
  assert (Hw : w ∈ workers st).
  { rewrite computeAutoAbsent_filter in Hin.
    by apply list_elem_of_filter in Hin as [_ Hin]. }
  apply (flagged_absent_on _ _ _ _ d Hd) in Hin.
  rewrite <- Hdate in Hin.
  unfold handleBulk, handleBulk_updater in Hin. cbn [attendance] in Hin.
  rewrite recordsOn_insert_eq in Hin.
  pose proof (bulk_loop_lookup "P" (workers st)
                (default ∅ (attendance st !! date st)) (worker_id w)) as Hsheet.
  destruct (decide (worker_id w ∈ worker_id <$> workers st /\
                    (worker_id w ≠ "__proto__" \/
                     is_Some (default ∅ (attendance st !! date st) !! worker_id w))))
    as [_|Hskip].
  - rewrite (absentIn_own w _ "P" Hsheet) in Hin. discriminate.
  - destruct (decide (worker_id w = "__proto__")) as [Hid|Hid].
    + destruct (default ∅ (attendance st !! date st) !! worker_id w) as [old|] eqn:Hold.
      { exfalso. apply Hskip. split; [by apply list_elem_of_fmap_2 | right; eauto]. }
      rewrite (absentIn_no_entry w _ Hsheet), Hid in Hin. discriminate.
    + exfalso. apply Hskip. split; [by apply list_elem_of_fmap_2 | by left].
Qed.


(** * The login screen *)

Lemma find_by_id_Some (sel : string) (l : list Supervisor) (s : Supervisor) :
  List.find (fun s => String.eqb (supervisor_id s) sel) l = Some s ->
  s ∈ l /\ supervisor_id s = sel.
Proof.
  intros [Hin Heq]%find_some. split.
  - by apply list_elem_of_In.
  - by apply String.eqb_eq.
Qed.

Lemma find_by_id_None (sel : string) (l : list Supervisor) :
  List.find (fun s => String.eqb (supervisor_id s) sel) l = None ->
  sel ∉ supervisor_id <$> l.
Proof.
  intros Hnone (s & -> & Hin)%list_elem_of_fmap.
  apply list_elem_of_In in Hin.
  pose proof (find_none _ _ Hnone s Hin) as Hs. simpl in Hs.
  by rewrite String.eqb_refl in Hs.
Qed.

(** X20. [Continue] on the login screen leaves it exactly when the
    selected value is the id of a listed supervisor; the session's
    supervisor is then a listed supervisor with that id, and the roster
    and the table are as before. *)
Theorem AuthScreen_continue_logs_in (sel : string) (st : AppState) :
  (showsAuthScreen (AuthScreen_continue sel st) = false <->
   sel ∈ supervisor_id <$> SUPERVISORS) /\
  (forall s : Supervisor,
     supervisor (AuthScreen_continue sel st) = Some s ->
     s ∈ SUPERVISORS /\ supervisor_id s = sel) /\
  workers (AuthScreen_continue sel st) = workers st /\
  attendance (AuthScreen_continue sel st) = attendance st.
Proof.
  unfold AuthScreen_continue, showsAuthScreen, login. cbn [supervisor workers attendance].
  split; [|split; [|done]].
  - destruct (List.find _ SUPERVISORS) as [s|] eqn:Hfind.
    + apply find_by_id_Some in Hfind as [Hin <-]. split; [|done].
      intros _. by apply list_elem_of_fmap_2.
    + apply find_by_id_None in Hfind. split; [done|]. intros ?. by exfalso.
  - intros s Hs. by apply find_by_id_Some in Hs.
Qed.

(** * The self tests *)

Lemma allAbsent_false now att w (d : Z) :
  d ∈ [1; 2; 3] ->
  absentIn w (recordsOn att (dateOffset now (- d))) = false ->
  allAbsent now att w = false.
Proof.
  intros Hd Hfalse. destruct (allAbsent now att w) eqn:Hall; [|done].
  pose proof (proj1 (allAbsent_true now att w) Hall d Hd). congruence.
Qed.

(** A literal whose three sheets are the same reads that sheet on each
    of its keys, whether or not the keys differ. *)
Lemma object3_same d1 d2 d3 (s : gmap string string) d :
  d = d1 \/ d = d2 \/ d = d3 ->
  recordsOn (object3 d1 s d2 s d3 s) d = s.
Proof.
  intros Hd. unfold recordsOn, object3. rewrite !lookup_insert.
  repeat case_decide; try done. exfalso. destruct Hd as [?|[?|?]]; congruence.
Qed.

Lemma object3_last d1 d2 d3 (s1 s2 s3 : gmap string string) :
  recordsOn (object3 d1 s1 d2 s2 d3 s3) d3 = s3.
Proof. unfold recordsOn, object3. by rewrite lookup_insert_eq. Qed.

Lemma object3_first d1 d2 d3 (s1 s2 s3 : gmap string string) :
  d1 ≠ d2 -> d1 ≠ d3 ->
  recordsOn (object3 d1 s1 d2 s2 d3 s3) d1 = s1.
Proof.
  intros H12 H13. unfold recordsOn, object3.
  rewrite !lookup_insert_ne by done. by rewrite lookup_insert_eq.
Qed.

Lemma three_offsets (now d : Z) :
  d ∈ [1; 2; 3] ->
  dateOffset now (- d) = dateOffset now (-1) \/
  dateOffset now (- d) = dateOffset now (-2) \/
  dateOffset now (- d) = dateOffset now (-3).
Proof.
  intros Hd.
  apply elem_of_cons in Hd as [-> | Hd]; [by left|].
  apply elem_of_cons in Hd as [-> | Hd]; [by right; left|].
  apply elem_of_cons in Hd as [-> | Hd]; [by right; right|].
  by apply elem_of_nil in Hd.
Qed.

Lemma foundId_filter_head (P : Worker -> Prop) `{!forall w, Decision (P w)}
    (w : Worker) (ws : list Worker) :
  P w -> foundId (worker_id w) (filter P (w :: ws)) = true.
Proof.
  intros Hw. rewrite filter_cons_True by done.
  unfold foundId. simpl. by rewrite String.eqb_refl.
Qed.

Lemma foundId_false (id : string) (P : Worker -> Prop) `{!forall w, Decision (P w)}
    (ws : list Worker) :
  (forall w, w ∈ ws -> worker_id w = id -> ~ P w) ->
  foundId id (filter P ws) = false.
Proof.
  intros Hno. unfold foundId.
  destruct (List.find _ (filter P ws)) as [w|] eqn:Hfind; [|done].
  apply find_some in Hfind as [Hin Heq]. exfalso.
  apply list_elem_of_In, list_elem_of_filter in Hin as [HP Hin].
  apply String.eqb_eq in Heq. by apply (Hno w).
Qed.

(** X21. The self tests of the file: for every clock reading the
    first, third and fourth assertions hold; the second holds as soon as
    yesterday's date string differs from those of the two days before. *)
Theorem runSelfTests_pass (now : Z) :
  (exists b : bool, runSelfTests now = [true; b; true; true]) /\
  (dateOffset now (-1) ≠ dateOffset now (-2) ->
   dateOffset now (-1) ≠ dateOffset now (-3) ->
   runSelfTests now = [true; true; true; true]).
Proof.
  unfold runSelfTests. cbv zeta.
  set (w1 := mkWorker "W1" EmptyString EmptyString).
  set (w2 := mkWorker "W2" EmptyString EmptyString).
  set (d1 := dateOffset now (-1)). set (d2 := dateOffset now (-2)).
  set (d3 := dateOffset now (-3)).
  rewrite !computeAutoAbsent_filter.
  assert (H1 : foundId "W1"
            (filter (fun w => allAbsent now
               (object3 d1 {["W1" := "A"]} d2 {["W1" := "A"]} d3 {["W1" := "A"]}) w = true)
               [w1; w2]) = true).
  { apply (foundId_filter_head _ w1). apply allAbsent_true. intros d Hd.
    rewrite object3_same by (by apply three_offsets). reflexivity. }
  assert (H3 : filter (fun w => allAbsent now (<[d1 := ∅]> ∅) w = true) [w1; w2]
               = [w1; w2]).
  { apply filter_all. intros w Hw. apply allAbsent_true. intros d Hd.
    assert (recordsOn (<[d1 := ∅]> ∅) (dateOffset now (- d)) = ∅) as ->.
    { unfold recordsOn. rewrite lookup_insert. by case_decide. }
    rewrite absentIn_no_entry by apply lookup_empty.
    apply elem_of_cons in Hw as [-> | Hw]; [reflexivity|].
    apply elem_of_cons in Hw as [-> | Hw]; [reflexivity|].
    by apply elem_of_nil in Hw. }
  assert (H4 : foundId "W1"
            (filter (fun w => allAbsent now
               (object3 d1 {["W1" := "A"]} d2 {["W1" := "A"]} d3 {["W1" := "P"]}) w = true)
               [w1; w2]) = false).
  { apply foundId_false. intros w Hw Hid Hall.
    assert (Hmem : (3 : Z) ∈ [1; 2; 3]) by (right; right; left).
    pose proof (proj1 (allAbsent_true _ _ _) Hall 3 Hmem) as H3rd.
    change (dateOffset now (- 3)) with d3 in H3rd.
    rewrite object3_last in H3rd.
    rewrite (absentIn_own w _ "P") in H3rd by (rewrite Hid; apply lookup_singleton_eq).
    discriminate. }
  rewrite H1, H3, H4. split; [eauto|].
  intros H12 H13.
  assert (H2 : foundId "W2"
            (filter (fun w => allAbsent now
               (object3 d1 {["W2" := "P"]} d2 {["W2" := "A"]} d3 {["W2" := "A"]}) w = true)
               [w1; w2]) = false).
  { apply foundId_false. intros w Hw Hid Hall.
    assert (Hmem : (1 : Z) ∈ [1; 2; 3]) by left.
    pose proof (proj1 (allAbsent_true _ _ _) Hall 1 Hmem) as H1st.
    change (dateOffset now (- 1)) with d1 in H1st.
    rewrite object3_first in H1st by done.
    rewrite (absentIn_own w _ "P") in H1st by (rewrite Hid; apply lookup_singleton_eq).
    discriminate. }
  by rewrite H2.
Qed.

(** * The export *)

(** X22. [downloadPDF] never throws and changes nothing but the
    notifications, to which it adds exactly one; that one is the success
    message exactly when the report element exists and the host's
    rendering and saving complete. *)
Theorem downloadPDF_notifies_once {Node : Type}
    (getElementById : string -> option Node)
    (rasterizeAndSave : Node -> string -> completion unit) (st : AppState) :
  exists msg : string,
    downloadPDF getElementById rasterizeAndSave st = Normal (addToast msg st) /\
    (msg = "PDF downloaded" <->
     exists node : Node,
       getElementById "printable-report" = Some node /\
       rasterizeAndSave node ("attendance_" ++ date st ++ ".pdf")%string = Normal tt).
Proof.
  unfold downloadPDF.
  destruct (getElementById "printable-report") as [node|].
  - destruct (rasterizeAndSave node _) as [[]|e] eqn:Hexp; simpl.
    + eexists. split; [reflexivity|]. split; [eauto|done].
    + eexists. split; [reflexivity|]. split; [done|].
      intros (node' & [= <-] & Hok). congruence.
  - eexists. split; [reflexivity|]. split; [done|]. by intros (? & ? & _).
Qed.

(** * More on the absence rule *)

(** X23. On any table whose stored statuses are strings, well formed
    or not, a worker is flagged exactly when it is on the roster and, on
    each of the three preceding dates, its entry is the empty string or
    ["A"], or it has no entry and its id names no inherited property.  A
    ["P"] entry on any of the three dates keeps the worker out of the
    list. *)
Theorem computeAutoAbsent_flags_exactly (now : Z) (att : AttendanceTable)
    (ws : list Worker) (w : Worker) :
  (w ∈ computeAutoAbsent now att ws <->
   w ∈ ws /\
   forall d : Z, d ∈ [1; 2; 3] ->
     (recordsOn att (dateOffset now (- d)) !! worker_id w = None /\
      inherited (worker_id w) = false) \/
     recordsOn att (dateOffset now (- d)) !! worker_id w = Some EmptyString \/
     recordsOn att (dateOffset now (- d)) !! worker_id w = Some "A") /\
  ((exists d : Z, d ∈ [1; 2; 3] /\
      recordsOn att (dateOffset now (- d)) !! worker_id w = Some "P") ->
   w ∉ computeAutoAbsent now att ws).
Proof.
  rewrite computeAutoAbsent_filter, list_elem_of_filter, allAbsent_true.
  split; [split|].
  - intros [Hall Hin]. split; [done|]. intros d Hd. by apply absentIn_cases, Hall.
  - intros [Hin Hall]. split; [|done]. intros d Hd. by apply absentIn_cases, Hall.
  - intros (d & Hd & HP) [Hall _]. specialize (Hall d Hd).
    rewrite (absentIn_present _ _ HP) in Hall. discriminate.
Qed.

(** X26. When the table has no sheet for any of the three preceding
    dates, the flagged list is the roster, in order, without the workers
    whose id names a property inherited from [Object.prototype]; so it is
    the whole roster when no id does. *)
Theorem computeAutoAbsent_unrecorded_days (now : Z) (att : AttendanceTable)
    (ws : list Worker) :
  (forall d : Z, d ∈ [1; 2; 3] -> att !! dateOffset now (- d) = None) ->
  computeAutoAbsent now att ws
  = filter (fun w => inherited (worker_id w) = false) ws /\
  ((forall w : Worker, w ∈ ws -> inherited (worker_id w) = false) ->
   computeAutoAbsent now att ws = ws).
Proof.
  intros Hnone. rewrite (computeAutoAbsent_no_sheets now att ws Hnone).
  split; [done|]. intros Hids. by apply filter_all.
Qed.

(** X24. Each worker is judged on its own: the flagged list of two
    rosters put end to end is the two flagged lists put end to end, and
    running the rule on its own result returns that result. *)
Theorem computeAutoAbsent_app_idempotent (now : Z) (att : AttendanceTable)
    (ws1 ws2 : list Worker) :
  computeAutoAbsent now att (ws1 ++ ws2)
  = computeAutoAbsent now att ws1 ++ computeAutoAbsent now att ws2 /\
  computeAutoAbsent now att (computeAutoAbsent now att ws1)
  = computeAutoAbsent now att ws1.
Proof.
  rewrite !computeAutoAbsent_filter. split.
  - apply filter_app.
  - apply filter_all. intros w Hw. by apply list_elem_of_filter in Hw as [Hw _].
Qed.

Lemma mark_on_day_entry w s st d :
  recordsOn (attendance (handleMark w s (setDate d st))) d !! worker_id w = Some s.
Proof.
  unfold handleMark, handleMark_updater, setDate. cbn [attendance date].
  rewrite recordsOn_insert_eq. apply lookup_insert_eq.
Qed.

Lemma mark_on_day_kept w s st d d' :
  recordsOn (attendance st) d' !! worker_id w = Some s ->
  recordsOn (attendance (handleMark w s (setDate d st))) d' !! worker_id w = Some s.
Proof.
  intros Hd. destruct (decide (d' = d)) as [->|Hne].
  - apply mark_on_day_entry.
  - unfold handleMark, handleMark_updater, setDate, recordsOn in *.
    cbn [attendance date]. by rewrite lookup_insert_ne.
Qed.

(** X25. Marking a roster worker ["A"] on each of the three preceding
    days, selecting the days one after the other, flags that worker,
    whatever the table held before. *)
Theorem three_absent_marks_flag (now : Z) (w : Worker) (st : AppState) :
  w ∈ workers st ->
  w ∈ autoAbsentList now
        (handleMark w "A" (setDate (dateOffset now (-3))
        (handleMark w "A" (setDate (dateOffset now (-2))
        (handleMark w "A" (setDate (dateOffset now (-1)) st)))))).
Proof.
  intros Hw. unfold autoAbsentList.
  rewrite computeAutoAbsent_filter. apply list_elem_of_filter. split; [|exact Hw].
  apply allAbsent_true. intros d Hd. apply absentIn_cases. right; right.
  apply elem_of_cons in Hd as [-> | Hd].
  { apply mark_on_day_kept, mark_on_day_kept, mark_on_day_entry. }
  apply elem_of_cons in Hd as [-> | Hd].
  { apply mark_on_day_kept, mark_on_day_entry. }
  apply elem_of_cons in Hd as [-> | Hd].
  { apply mark_on_day_entry. }
  by apply elem_of_nil in Hd.
Qed.

(** * Instances of the further properties *)

Lemma loadLS_stored_record_witness :
  loadLS parse_empty_object (Available {[ LS_KEYS_attendance := "{}" ]})
         LS_KEYS_attendance attendance_old
  = Normal ∅.
Proof.
  destruct (loadLS_stored_record parse_empty_object
              (Available {[ LS_KEYS_attendance := "{}" ]})
              LS_KEYS_attendance attendance_old) as [Hparsed _].
  apply (Hparsed "{}" ∅); reflexivity.
Defined.

Lemma saveLS_loadLS_roundtrip_witness :
  loadLS parse_empty_object (Available {[ LS_KEYS_attendance := "{}" ]})
         LS_KEYS_attendance attendance_old
  = Normal ∅.
Proof.
  apply (saveLS_loadLS_roundtrip stringify_empty_object parse_empty_object
           (Available ∅) (Available {[ LS_KEYS_attendance := "{}" ]})
           LS_KEYS_attendance ∅ attendance_old); reflexivity.
Defined.

Lemma saveLS_other_key_witness :
  loadLS parse_null
         (Available (<[LS_KEYS_attendance := "{}"]>
                     (<[LS_KEYS_supervisor := "null"]> ∅)))
         LS_KEYS_supervisor None
  = loadLS parse_null (Available (<[LS_KEYS_supervisor := "null"]> ∅))
           LS_KEYS_supervisor None.
Proof.
  apply (saveLS_other_key stringify_empty_object parse_null
           (Available (<[LS_KEYS_supervisor := "null"]> ∅)) _
           LS_KEYS_attendance LS_KEYS_supervisor ∅ None).
  - reflexivity.
  - apply (bool_decide_unpack _). by vm_compute.
Defined.

Lemma App_effects_init_roundtrip_witness :
  App_effects stringify_null stringify_empty_array stringify_empty_object
              state_blank storage_stale = Normal storage_blank /\
  App_init parse_null parse_empty_array parse_empty_object now0 storage_blank
  = Normal (mkApp None [] ∅ (getToday now0) []).
Proof.
  assert (Heff : App_effects stringify_null stringify_empty_array
                   stringify_empty_object state_blank storage_stale
                 = Normal storage_blank) by reflexivity.
  split; [exact Heff|].
  exact (App_effects_init_roundtrip
           stringify_null stringify_empty_array stringify_empty_object
           parse_null parse_empty_array parse_empty_object
           now0 state_blank storage_stale storage_blank Heff
           eq_refl eq_refl eq_refl eq_refl eq_refl eq_refl).
Defined.

Lemma state_stray_well_formed : well_formed (attendance state_stray).
Proof. apply (bool_decide_unpack _). by vm_compute. Defined.

Lemma DEFAULT_WORKERS_ids_NoDup : NoDup (worker_id <$> DEFAULT_WORKERS).
Proof. apply (bool_decide_unpack _). by vm_compute. Defined.

Lemma state_fresh_no_stray (k : string) :
  is_Some (todayRecords state_fresh !! k) -> k ∈ worker_id <$> workers state_fresh.
Proof.
  change (todayRecords state_fresh) with (∅ : gmap string string).
  rewrite lookup_empty. by intros [? ?].
Defined.

Lemma counters_partition_witness :
  well_formed (attendance state_stray) /\
  (presentCount state_stray + absentCount state_stray
   = size (todayRecords state_stray))%nat.
Proof.
  split; [exact state_stray_well_formed|].
  exact (proj2 (counters_partition state_stray) state_stray_well_formed).
Defined.

Lemma state_proto_ids_NoDup : NoDup (worker_id <$> workers state_proto).
Proof. apply (bool_decide_unpack _). by vm_compute. Defined.

Lemma state_proto_no_stray (k : string) :
  is_Some (todayRecords state_proto !! k) -> k ∈ worker_id <$> workers state_proto.
Proof.
  change (todayRecords state_proto) with (∅ : gmap string string).
  rewrite lookup_empty. by intros [? ?].
Defined.

Lemma handleBulk_counters_witness :
  (presentCount (handleBulk "P" state_proto)
   + indicator ("__proto__" ∈ worker_id <$> workers state_proto /\
                todayRecords state_proto !! "__proto__" = None)
   = length (workers state_proto))%nat /\
  absentCount (handleBulk "P" state_proto) = 0%nat.
Proof.
  exact (proj1 (handleBulk_counters state_proto
                  state_proto_ids_NoDup state_proto_no_stray)).
Defined.

Lemma labels_on_well_formed_sheet_witness :
  sheetLabel (readProp {[ "W1" := "A" ]} (worker_id W1))
  = reportLabel (({[ "W1" := "A" ]} : gmap string string) !! worker_id W1) /\
  (sheetLabel (readProp ∅ (worker_id W_constructor)) = "Absent" /\
   reportLabel ((∅ : gmap string string) !! worker_id W_constructor) = "Not Marked" /\
   absentIn W_constructor ∅ = false).
Proof.
  assert (Hwf : map_Forall (fun (_ : string) s => s = "P" \/ s = "A")
                           ({[ "W1" := "A" ]} : gmap string string)).
  { apply (bool_decide_unpack _). by vm_compute. }
  split.
  - apply (proj1 (labels_on_well_formed_sheet W1 {[ "W1" := "A" ]} Hwf)).
    left. exists "A". reflexivity.
  - apply (proj2 (labels_on_well_formed_sheet W_constructor ∅ (map_Forall_empty _)));
      reflexivity.
Defined.

Lemma report_rows_match_counters_witness :
  rowsLabelled "Present"
    (PrintableDailyReport_rows (workers state_fresh) (todayRecords state_fresh))
  = presentCount state_fresh.
Proof.
  exact (proj1 (proj2 (report_rows_match_counters state_fresh
                         DEFAULT_WORKERS_ids_NoDup) state_fresh_no_stray)).
Defined.

Lemma setDate_unrecorded_day_witness :
  attendance state_stray !! "2026-12-25" = None /\
  presentCount (setDate "2026-12-25" state_stray) = 0%nat.
Proof.
  assert (Hd : attendance state_stray !! "2026-12-25" = None) by reflexivity.
  split; [exact Hd|].
  exact (proj1 (proj2 (setDate_unrecorded_day "2026-12-25" state_stray Hd))).
Defined.

Lemma handleBulk_as_marks_witness :
  attendance (handleBulk "A" state_fresh)
  = attendance (fold_left (fun st w => handleMark w "A" st)
                          (workers state_fresh) state_fresh) /\
  attendance (handleBulk "A" state_blank) !! date state_blank = Some ∅ /\
  (recordsOn (attendance (handleBulk "A" state_proto)) (date state_proto) !! "__proto__"
   = None /\
   recordsOn (attendance (fold_left (fun st w => handleMark w "A" st)
                                    (workers state_proto) state_proto))
             (date state_proto) !! "__proto__"
   = Some "A").
Proof.
  destruct (handleBulk_as_marks "A" state_fresh) as (Hsame & _ & _).
  destruct (handleBulk_as_marks "A" state_blank) as (_ & Hempty & _).
  destruct (handleBulk_as_marks "A" state_proto) as (_ & _ & Hdiffer).
  split; [|split].
  - apply Hsame; [discriminate|]. intros Hin. exfalso. revert Hin.
    apply (bool_decide_unpack _). by vm_compute.
  - apply Hempty; reflexivity.
  - apply Hdiffer; [by left | reflexivity].
Defined.

Lemma handleMark_commute_witness :
  attendance (handleMark W1 "P" (handleMark W2 "A" state_fresh))
  = attendance (handleMark W2 "A" (handleMark W1 "P" state_fresh)).
Proof. apply handleMark_commute. discriminate. Defined.

Lemma marks_preserve_well_formed_witness :
  well_formed (attendance (handleMark W1 "P" state_stray)) /\
  well_formed (attendance (handleBulk "P" state_stray)).
Proof.
  apply marks_preserve_well_formed; [exact state_stray_well_formed | by left].
Defined.

Lemma marks_never_delete_witness :
  is_Some (recordsOn (attendance (handleMark W1 "P" state_stray)) "2026-11-02" !! "W-999") /\
  is_Some (recordsOn (attendance (handleBulk "P" state_stray)) "2026-11-02" !! "W-999").
Proof.
  apply marks_never_delete. exists "A". reflexivity.
Defined.

Lemma one_in_offsets : (1 : Z) ∈ [1; 2; 3].
Proof. left. Defined.

Lemma handleMark_present_unflags_witness :
  mkWorker "W-101" "Abdul Karim" "Mason"
  ∉ autoAbsentList now0 (handleMark (mkWorker "W-101" "Abdul Karim" "Mason") "P"
                                    state_yesterday).
Proof.
  apply (handleMark_present_unflags now0 1 _ _ state_yesterday one_in_offsets).
  - by vm_compute.
  - reflexivity.
Defined.

Lemma handleBulk_present_clears_flags_witness :
  autoAbsentList now0 (handleBulk "P" state_yesterday) = [].
Proof.
  apply (handleBulk_present_clears_flags now0 1 state_yesterday one_in_offsets).
  by vm_compute.
Defined.


Lemma AuthScreen_continue_logs_in_witness :
  showsAuthScreen (AuthScreen_continue "S-2" state_blank) = false.
Proof.
  apply (proj1 (AuthScreen_continue_logs_in "S-2" state_blank)).
  apply (bool_decide_unpack _). by vm_compute.
Defined.

Lemma runSelfTests_pass_witness : runSelfTests now0 = [true; true; true; true].
Proof.
  apply (proj2 (runSelfTests_pass now0)); by vm_compute.
Defined.

Lemma downloadPDF_notifies_once_witness :
  exists msg : string,
    downloadPDF no_element export_ok state_fresh = Normal (addToast msg state_fresh) /\
    (msg = "PDF downloaded" <->
     exists node : unit,
       no_element "printable-report" = Some node /\
       export_ok node ("attendance_" ++ date state_fresh ++ ".pdf")%string = Normal tt).
Proof. exact (downloadPDF_notifies_once no_element export_ok state_fresh). Defined.

Lemma three_absent_marks_flag_witness :
  mkWorker "W-101" "Abdul Karim" "Mason"
  ∈ autoAbsentList now0
      (handleMark (mkWorker "W-101" "Abdul Karim" "Mason") "A"
         (setDate (dateOffset now0 (-3))
      (handleMark (mkWorker "W-101" "Abdul Karim" "Mason") "A"
         (setDate (dateOffset now0 (-2))
      (handleMark (mkWorker "W-101" "Abdul Karim" "Mason") "A"
         (setDate (dateOffset now0 (-1)) state_fresh)))))).
Proof. apply three_absent_marks_flag. left. Defined.

Lemma computeAutoAbsent_flags_exactly_witness :
  (exists d : Z, d ∈ [1; 2; 3] /\
     recordsOn attendance_case2 (dateOffset now0 (- d)) !! worker_id W2 = Some "P") /\
  W2 ∉ computeAutoAbsent now0 attendance_case2 [W1; W2].
Proof.
  assert (Hpresent : exists d : Z, d ∈ [1; 2; 3] /\
            recordsOn attendance_case2 (dateOffset now0 (- d)) !! worker_id W2
            = Some "P").
  { exists 1. split; [by left | by vm_compute]. }
  split; [exact Hpresent|].
  exact (proj2 (computeAutoAbsent_flags_exactly now0 attendance_case2 [W1; W2] W2)
               Hpresent).
Defined.

Lemma computeAutoAbsent_unrecorded_days_witness :
  computeAutoAbsent now0 attendance_old [W_constructor; W1]
  = filter (fun w => inherited (worker_id w) = false) [W_constructor; W1] /\
  computeAutoAbsent now0 attendance_old DEFAULT_WORKERS = DEFAULT_WORKERS.
Proof.
  assert (Hnone : forall d : Z, d ∈ [1; 2; 3] ->
            attendance_old !! dateOffset now0 (- d) = None).
  { intros d Hd.
    apply elem_of_cons in Hd as [-> | Hd]; [by vm_compute|].
    apply elem_of_cons in Hd as [-> | Hd]; [by vm_compute|].
    apply elem_of_cons in Hd as [-> | Hd]; [by vm_compute|].
    by apply elem_of_nil in Hd. }
  split.
  - exact (proj1 (computeAutoAbsent_unrecorded_days now0 attendance_old
                    [W_constructor; W1] Hnone)).
  - apply (proj2 (computeAutoAbsent_unrecorded_days now0 attendance_old
                    DEFAULT_WORKERS Hnone)).
    intros w Hw. repeat (apply elem_of_cons in Hw as [-> | Hw]; [reflexivity|]).
    by apply elem_of_nil in Hw.
Defined.

Lemma handleBulk_marks_accepted_ids_witness :
  recordsOn (attendance (handleBulk "P" state_proto)) (date state_proto) !! worker_id W1
  = Some "P" /\
  recordsOn (attendance (handleBulk "P" state_proto)) (date state_proto) !! "__proto__"
  = None /\
  attendance (handleBulk "P" state_proto) !! "2026-11-01"
  = attendance state_proto !! "2026-11-01".
Proof.
  destruct (handleBulk_marks_accepted_ids "P" state_proto) as (Hset & Hskip & Hframe).
  split; [|split].
  - apply (Hset W1); [right; by left | by left].
  - apply Hskip. reflexivity.
  - apply Hframe. discriminate.
Defined.

(** On [state_proto], "All Present" leaves the summary at one present
    worker out of two. *)
Example handleBulk_proto_summary :
  presentCount (handleBulk "P" state_proto) = 1%nat /\
  length (workers state_proto) = 2%nat.
Proof. by vm_compute. Qed.
